(** * Response orchestration core of [src/services/aiService.js]

    A shallow embedding of the [AIService] class: keyword extraction,
    knowledge retrieval, context assembly, provider selection, provider
    dispatch with its degraded path, and usage metering.  JavaScript strings
    are sequences of UTF-16 code units; the SQLite store, the provider
    endpoints and [Math.random] are part of an explicit state that every
    effectful method threads through. *)

From Stdlib Require Import ZArith NArith List String Ascii Bool Lia DecimalString.
From stdpp Require Import base option list gmap.

Import ListNotations.
Close Scope string_scope.
Open Scope list_scope.

(** ** JavaScript strings *)

(** A JavaScript string is a finite sequence of UTF-16 code units. *)
Definition jsstring := list N.

Module Literal.

(** Code units of one Unicode code point (a surrogate pair above the
    basic plane). *)
Definition units_of_point (cp : N) : list N :=
  if (cp <? 65536)%N then [cp]
  else [(55296 + (cp - 65536) / 1024)%N; (56320 + (cp - 65536) mod 1024)%N].

(** Decoder for the UTF-8 bytes of a literal written in this file:
    [need] continuation bytes are still expected for the code point
    accumulated in [acc]. *)
Fixpoint decode (need : nat) (acc : N) (bytes : list N) : list N :=
  match bytes with
  | [] => []
  | b :: rest =>
      match need with
      | O =>
          if (b <? 128)%N then b :: decode 0 0%N rest
          else if (b <? 224)%N then decode 1 (b - 192)%N rest
          else if (b <? 240)%N then decode 2 (b - 224)%N rest
          else decode 3 (b - 240)%N rest
      | S O => units_of_point (acc * 64 + (b - 128))%N ++ decode 0 0%N rest
      | S n => decode n (acc * 64 + (b - 128))%N rest
      end
  end.

Definition bytes_of (s : string) : list N :=
  map (fun a => N_of_ascii a) (list_ascii_of_string s).

End Literal.

(** [u "text"] is the JavaScript string written ['text'] in the source. *)
Definition u (s : string) : jsstring := Literal.decode 0 0%N (Literal.bytes_of s).
Arguments u s%_string.

Definition LF : N := 10%N.

(** [Array.prototype.join] on strings. *)
Fixpoint join (sep : jsstring) (parts : list jsstring) : jsstring :=
  match parts with
  | [] => []
  | [p] => p
  | p :: rest => p ++ sep ++ join sep rest
  end.

(** A template literal that spans several source lines. *)
Definition text_lines (ls : list string) : jsstring := join [LF] (map u ls).

(** Simple lower-case mapping of one code unit, for the Basic Latin and
    Latin-1 Supplement blocks (the alphabet of the service's vocabulary);
    code units of other blocks are left as they are. *)
Definition lower_unit (c : N) : N :=
  if ((65 <=? c) && (c <=? 90))%N then (c + 32)%N
  else if ((192 <=? c) && (c <=? 222) && negb (c =? 215))%N then (c + 32)%N
  else c.

(** [String.prototype.toLowerCase], code unit by code unit. *)
Definition toLowerCase (s : jsstring) : jsstring := map lower_unit s.

Definition unit_eqb (a b : N) : bool := (a =? b)%N.

Fixpoint startsWith (s t : jsstring) : bool :=
  match t, s with
  | [], _ => true
  | _ :: _, [] => false
  | b :: t', a :: s' => unit_eqb a b && startsWith s' t'
  end.

(** [String.prototype.includes]: [t] occurs in [s] as a substring. *)
Fixpoint includes (s t : jsstring) : bool :=
  startsWith s t ||
  match s with
  | [] => false
  | _ :: s' => includes s' t
  end.

(** The class [\s] of regular expressions. *)
Definition isWhiteSpace (c : N) : bool :=
  ((9 <=? c) && (c <=? 13) || (c =? 32) || (c =? 160) || (c =? 5760)
   || (8192 <=? c) && (c <=? 8202) || (c =? 8232) || (c =? 8233)
   || (c =? 8239) || (c =? 8287) || (c =? 12288) || (c =? 65279))%N.

(** [text.split(/\s+/)]: [word] is the piece being read, [inGap] tells
    that the previous code unit was white space.  A separator closes the
    current piece, also an empty one at either end of the text. *)
Fixpoint split_ws_from (inGap : bool) (word : jsstring) (s : jsstring)
  : list jsstring :=
  match s with
  | [] => [word]
  | c :: s' =>
      if isWhiteSpace c then
        if inGap then split_ws_from true word s'
        else word :: split_ws_from true [] s'
      else split_ws_from false (word ++ [c]) s'
  end.

Definition split_ws (s : jsstring) : list jsstring := split_ws_from false [] s.

(** [s.length], the number of code units. *)
Definition str_length (s : jsstring) : Z := Z.of_nat (length s).

(** ** Static configuration *)

(** The four modes that the chat route lets through
    ([body('mode').isIn([...])]); the service compares them as strings. *)
Inductive Mode := consulta | daytrade | portfolio | robot.

Module Profile.
Record t := make { url : jsstring; model : jsstring; maxTokens : Z }.
End Profile.

Definition openai : jsstring := Eval vm_compute in u "openai".
Definition claude : jsstring := Eval vm_compute in u "claude".
Definition deepseek : jsstring := Eval vm_compute in u "deepseek".
Definition fallback : jsstring := Eval vm_compute in u "fallback".

Definition openai_profile : Profile.t :=
  Eval vm_compute in
  Profile.make (u "https://api.openai.com/v1/chat/completions") (u "gpt-4-turbo-preview") 4000.

Definition claude_profile : Profile.t :=
  Eval vm_compute in
  Profile.make (u "https://api.anthropic.com/v1/messages") (u "claude-3-sonnet-20240229") 4000.

Definition deepseek_profile : Profile.t :=
  Eval vm_compute in
  Profile.make (u "https://api.deepseek.com/v1/chat/completions") (u "deepseek-chat") 4000.

Definition jsstring_eqb (a b : jsstring) : bool := bool_decide (a = b).

(** [this.providers[id]]: [None] is JavaScript's [undefined]. *)
Definition providers (id : jsstring) : option Profile.t :=
  if jsstring_eqb id openai then Some openai_profile
  else if jsstring_eqb id claude then Some claude_profile
  else if jsstring_eqb id deepseek then Some deepseek_profile
  else None.

(** [financialPrompts.consulta], a template literal of four lines. *)
Definition prompt_consulta : jsstring :=
  Eval vm_compute in text_lines [
    "Você é um analista financeiro especializado no mercado brasileiro. ";
    "            Forneça análises técnicas e fundamentalistas precisas, sempre baseadas em dados reais quando possível.";
    "            Use termos técnicos adequados e seja específico em suas recomendações.";
    "            Sempre inclua disclaimers sobre riscos de investimento."
  ]%string.

(** [financialPrompts.daytrade], a template literal of four lines. *)
Definition prompt_daytrade : jsstring :=
  Eval vm_compute in text_lines [
    "Você é um especialista em day trade focado nos futuros da B3 (WINFUT, INDFUT, DOLFUT, WDOFUT, BITFUT).";
    "            Forneça análises técnicas específicas com pontos de entrada, stop loss e alvos.";
    "            Considere volume, padrões de candlestick e indicadores técnicos.";
    "            Seja preciso com níveis de preço e sempre mencione o gerenciamento de risco."
  ]%string.

(** [financialPrompts.portfolio], a template literal of four lines. *)
Definition prompt_portfolio : jsstring :=
  Eval vm_compute in text_lines [
    "Você é um consultor de investimentos especializado em otimização de portfólios.";
    "            Analise diversificação, correlações entre ativos e perfil de risco.";
    "            Forneça recomendações de alocação baseadas em teoria moderna de portfólio.";
    "            Considere o cenário macroeconômico brasileiro e global."
  ]%string.

(** [financialPrompts.robot], a template literal of four lines. *)
Definition prompt_robot : jsstring :=
  Eval vm_compute in text_lines [
    "Você é um programador especializado em desenvolvimento de robôs de trading para a plataforma Nelogica.";
    "            Use a linguagem NTFL (Nelogica Trading Formula Language).";
    "            Forneça código limpo, comentado e testável.";
    "            Inclua explicações sobre a lógica da estratégia e parâmetros de configuração."
  ]%string.

(** Text of [responses[0]] in [getMockResponse] (reported cost 150). *)
Definition mock_content_0 : jsstring :=
  Eval vm_compute in text_lines [
    "Baseado na análise técnica atual, identifiquei alguns pontos importantes:";
    "";
    "📊 **Análise Geral do Mercado:**";
    "• IBOVESPA está testando resistência em 130.000 pontos";
    "• Volume médio nas últimas sessões";
    "• Tendência de curto prazo lateral com viés de alta";
    "";
    "📈 **WINFUT - Recomendações:**";
    "• Suporte: 127.800 / 127.500";
    "• Resistência: 128.400 / 128.700";
    "• Estratégia: Aguardar rompimento para definir direção";
    "";
    "⚠️ **Gestão de Risco:**";
    "• Stop loss sempre abaixo do suporte identificado";
    "• Position size adequado ao seu capital";
    "• Não arrisque mais de 2% do capital por operação";
    "";
    "*Esta análise é baseada em dados técnicos e não constitui recomendação de investimento. Sempre consulte um assessor financeiro.*"
  ]%string.

(** Text of [responses[1]] in [getMockResponse] (reported cost 180). *)
Definition mock_content_1 : jsstring :=
  Eval vm_compute in text_lines [
    "Análise técnica para Day Trade:";
    "";
    "🎯 **WINFUT - Setup Atual:**";
    "• Preço: 128.100 pontos";
    "• Movimento lateral entre 127.800 e 128.400";
    "• MACD em divergência positiva";
    "• RSI em 55 (neutro)";
    "";
    "📋 **Estratégia Sugerida:**";
    "1. **Entrada Long:** Rompimento de 128.400 com volume";
    "2. **Stop Loss:** 127.950 (45 pontos)";
    "3. **Alvo 1:** 128.700 (30 pontos)";
    "4. **Alvo 2:** 129.000 (60 pontos)";
    "";
    "🔍 **INDFUT - Observações:**";
    "• Maior volatilidade que WINFUT";
    "• Correlação alta com IBOV";
    "• Requer maior capital devido ao tick";
    "";
    "⚡ **Dicas para Day Trade:**";
    "• Opere apenas nos horários de maior volume (10h-11h30 / 14h-16h)";
    "• Use ordens stop para proteção automática";
    "• Acompanhe os índices americanos para confluência";
    "";
    "*Lembrando que day trade é uma atividade de alto risco.*"
  ]%string.

(** [fallbacks.consulta.content]. *)
Definition fallback_content_consulta : jsstring :=
  Eval vm_compute in u "Desculpe, estou enfrentando dificuldades técnicas no momento. Por favor, tente novamente em alguns minutos ou reformule sua pergunta.".

(** [fallbacks.daytrade.content]. *)
Definition fallback_content_daytrade : jsstring :=
  Eval vm_compute in u "Sistema de análise técnica temporariamente indisponível. Para day trade, sempre lembre-se de usar stop loss e não arriscar mais de 2% do capital por operação.".

(** [fallbacks.portfolio.content]. *)
Definition fallback_content_portfolio : jsstring :=
  Eval vm_compute in u "Serviço de análise de portfólio em manutenção. Em breve estaremos de volta com análises completas de diversificação e otimização.".

(** [fallbacks.robot.content]. *)
Definition fallback_content_robot : jsstring :=
  Eval vm_compute in u "Gerador de código NTFL temporariamente offline. Consulte a documentação da Nelogica para referências de programação.".

(** [this.financialPrompts[mode]]. *)
Definition financialPrompts (mode : Mode) : jsstring :=
  match mode with
  | consulta => prompt_consulta
  | daytrade => prompt_daytrade
  | portfolio => prompt_portfolio
  | robot => prompt_robot
  end.

(** ** Keyword extractor *)

Definition financialTerms : list jsstring :=
  Eval vm_compute in
  map u [ "WINFUT"; "INDFUT"; "DOLFUT"; "WDOFUT"; "BITFUT";
          "bovespa"; "ibovespa"; "futuros"; "day trade"; "swing trade";
          "scalping"; "breakout"; "support"; "resistance"; "macd";
          "rsi"; "bollinger"; "fibonacci"; "candlestick"; "volume";
          "análise técnica"; "análise fundamentalista" ]%string.

(** The predicate of the [filter] in [extractKeywords]. *)
Definition isKeyword (word : jsstring) : bool :=
  existsb (fun term =>
             includes (toLowerCase term) word || includes word (toLowerCase term))
          financialTerms
  || (4 <? str_length word)%Z.

Definition extractKeywords (text : jsstring) : list jsstring :=
  let words := split_ws (toLowerCase text) in
  firstn 10 (List.filter isKeyword words).

(** ** Provider selector *)

Definition selectProvider (message : jsstring) (mode : Mode) : jsstring :=
  if (match mode with robot => true | _ => false end)
     || includes (toLowerCase message) (u "código")
     || includes (toLowerCase message) (u "ntfl")
  then openai
  else if (match mode with daytrade => true | _ => false end)
          || includes (toLowerCase message) (u "análise técnica")
  then claude
  else if includes (toLowerCase message) (u "previsão")
          || includes (toLowerCase message) (u "tendência")
  then deepseek
  else openai.

(** ** JavaScript values

    What a provider sends back is arbitrary JSON, so the reply of a
    provider call is modelled as an untyped value.  Numbers are the
    integers (token counts); [VNaN] is the one non-integer number that the
    service can compute from them. *)

#[local] Set Warnings "-register-all".
Inductive value :=
| VUndefined
| VNull
| VBool (b : bool)
| VNum (n : Z)
| VNaN
| VStr (s : jsstring)
| VArr (elems : list value)
| VObj (props : list (jsstring * value)).
#[local] Set Warnings "register-all".

Inductive exn := TypeError | SqliteError | AxiosError.

(** Evaluation of an expression that may throw. *)
#[global] Instance result_bind : MBind (sum exn) :=
  fun A B k r => match r with inr a => k a | inl e => inl e end.

(** Truthiness, as tested by [||] and [if]. *)
Definition truthy (v : value) : bool :=
  match v with
  | VUndefined | VNull | VNaN => false
  | VBool b => b
  | VNum n => negb (n =? 0)%Z
  | VStr s => match s with [] => false | _ => true end
  | VArr _ | VObj _ => true
  end.

(** [a || b]. *)
Definition js_or (a b : value) : value := if truthy a then a else b.

(** Decimal text of an integer. *)
Definition number_text (n : Z) : jsstring :=
  Literal.decode 0 0%N (Literal.bytes_of (DecimalString.NilZero.string_of_int (Z.to_int n))).

(** [String(v)]. *)
Fixpoint toString (v : value) : jsstring :=
  match v with
  | VUndefined => u "undefined"
  | VNull => u "null"
  | VBool true => u "true"
  | VBool false => u "false"
  | VNum n => number_text n
  | VNaN => u "NaN"
  | VStr s => s
  | VArr elems =>
      join (u ",")
           (map (fun e => match e with
                          | VUndefined | VNull => []
                          | _ => toString e
                          end) elems)
  | VObj _ => u "[object Object]"
  end.

Definition toPrimitive (v : value) : value :=
  match v with
  | VArr _ | VObj _ => VStr (toString v)
  | _ => v
  end.

(** [Number(v)] for a primitive that is no string; [None] is NaN. *)
Definition toNumber (v : value) : option Z :=
  match v with
  | VNull => Some 0%Z
  | VBool true => Some 1%Z
  | VBool false => Some 0%Z
  | VNum n => Some n
  | _ => None
  end.

(** [a + b]. *)
Definition js_add (a b : value) : value :=
  let pa := toPrimitive a in
  let pb := toPrimitive b in
  match pa, pb with
  | VStr _, _ | _, VStr _ => VStr (toString pa ++ toString pb)
  | _, _ =>
      match toNumber pa, toNumber pb with
      | Some x, Some y => VNum (x + y)
      | _, _ => VNaN
      end
  end.

Fixpoint assoc (k : jsstring) (props : list (jsstring * value)) : value :=
  match props with
  | [] => VUndefined
  | (k', v) :: rest => if jsstring_eqb k' k then v else assoc k rest
  end.

(** [v.k] for a data property name [k] (none of the names read below is a
    built-in property of strings, numbers or arrays). *)
Definition get_prop (v : value) (k : jsstring) : exn + value :=
  match v with
  | VUndefined | VNull => inl TypeError
  | VObj props => inr (assoc k props)
  | _ => inr VUndefined
  end.

(** [v[0]]. *)
Definition get_first (v : value) : exn + value :=
  match v with
  | VUndefined | VNull => inl TypeError
  | VArr elems => inr (match elems with e :: _ => e | [] => VUndefined end)
  | VStr s => inr (match s with c :: _ => VStr [c] | [] => VUndefined end)
  | VObj props => inr (assoc (u "0") props)
  | _ => inr VUndefined
  end.

(** ** Data model *)

(** A conversation turn, a row [{role, content}] of [messages]. *)
Module Msg.
Record t := make { role : jsstring; content : jsstring }.
End Msg.

(** A knowledge snippet as [searchKnowledge] selects it. *)
Module Item.
Record t := make {
  title : jsstring;
  content : jsstring;
  category : jsstring;
  subcategory : option jsstring
}.
End Item.

(** A row of [financial_knowledge]; [None] is SQL's NULL.  The relevance
    score is a pair numerator/denominator. *)
Record KnowledgeRow := {
  row_item : Item.t;
  tags : option jsstring;
  relevance_score : Z * positive
}.

(** The columns of [users] that the service reads. *)
Record User := { plan : jsstring; credits : Z }.

(** The columns of [api_logs] that [logUsage] writes. *)
Record ApiLog := {
  user_id : Z;
  endpoint : jsstring;
  method : jsstring;
  status_code : Z
}.

(** What a provider adapter ([callOpenAI], [callClaude], [callDeepSeek],
    [getMockResponse]) returns. *)
Module Reply.
Record t := make { content : value; tokensUsed : value }.
End Reply.

(** The object [generateResponse] returns. *)
Record DispatchResult := {
  content : value;
  provider : jsstring;
  tokensUsed : value;
  model : jsstring
}.

(** An outbound [axios.post]: endpoint, model, prompt and token ceiling. *)
Record Request := {
  req_url : jsstring;
  req_model : jsstring;
  req_prompt : jsstring;
  req_max_tokens : Z
}.

(** How an outbound call ends: no response at all, or a status code and
    the parsed body. *)
Inductive HttpReply :=
| NetworkFailure
| HttpResponse (status : Z) (data : value).

(** ** State

    Arrays of turns live in a heap and are passed by reference.  The last
    three fields are the environment's future: the outcome of each coming
    store operation ([true] is a failure), of each coming provider call,
    and each coming [Math.random()] draw, recorded as whether it is at
    least one half. *)

Definition loc := positive.

Record State := mkState {
  heap : gmap loc (list Msg.t);
  users : gmap Z User;
  api_logs : list ApiLog;
  financial_knowledge : list KnowledgeRow;
  console : list jsstring;
  requests : list Request;
  store_faults : list bool;
  http_replies : list HttpReply;
  random_draws : list bool
}.

Definition set_heap (f : gmap loc (list Msg.t) -> gmap loc (list Msg.t)) (st : State) : State :=
  mkState (f (heap st)) (users st) (api_logs st) (financial_knowledge st)
          (console st) (requests st) (store_faults st) (http_replies st)
          (random_draws st).

Definition set_users (f : gmap Z User -> gmap Z User) (st : State) : State :=
  mkState (heap st) (f (users st)) (api_logs st) (financial_knowledge st)
          (console st) (requests st) (store_faults st) (http_replies st)
          (random_draws st).

Definition set_api_logs (f : list ApiLog -> list ApiLog) (st : State) : State :=
  mkState (heap st) (users st) (f (api_logs st)) (financial_knowledge st)
          (console st) (requests st) (store_faults st) (http_replies st)
          (random_draws st).

Definition set_console (f : list jsstring -> list jsstring) (st : State) : State :=
  mkState (heap st) (users st) (api_logs st) (financial_knowledge st)
          (f (console st)) (requests st) (store_faults st) (http_replies st)
          (random_draws st).

Definition set_requests (f : list Request -> list Request) (st : State) : State :=
  mkState (heap st) (users st) (api_logs st) (financial_knowledge st)
          (console st) (f (requests st)) (store_faults st) (http_replies st)
          (random_draws st).

Definition set_store_faults (f : list bool -> list bool) (st : State) : State :=
  mkState (heap st) (users st) (api_logs st) (financial_knowledge st)
          (console st) (requests st) (f (store_faults st)) (http_replies st)
          (random_draws st).

Definition set_http_replies (f : list HttpReply -> list HttpReply) (st : State) : State :=
  mkState (heap st) (users st) (api_logs st) (financial_knowledge st)
          (console st) (requests st) (store_faults st) (f (http_replies st))
          (random_draws st).

Definition set_random_draws (f : list bool -> list bool) (st : State) : State :=
  mkState (heap st) (users st) (api_logs st) (financial_knowledge st)
          (console st) (requests st) (store_faults st) (http_replies st)
          (f (random_draws st)).

(** ** The monad of the service: state and exceptions

    A computation ends with a value or with a thrown exception; the state
    it reached is kept in both cases. *)

Definition M (A : Type) : Type := State -> (exn + A) * State.

Definition ret {A} (a : A) : M A := fun st => (inr a, st).

Definition throw {A} (e : exn) : M A := fun st => (inl e, st).

Definition bind {A B} (m : M A) (k : A -> M B) : M B :=
  fun st =>
    match m st with
    | (inr a, st') => k a st'
    | (inl e, st') => (inl e, st')
    end.

(** [try { m } catch (error) { h error }]. *)
Definition try_catch {A} (m : M A) (h : exn -> M A) : M A :=
  fun st =>
    match m st with
    | (inr a, st') => (inr a, st')
    | (inl e, st') => h e st'
    end.

Definition lift {A} (r : exn + A) : M A := fun st => (r, st).

Definition modify (f : State -> State) : M unit := fun st => (inr tt, f st).

Definition gets {A} (f : State -> A) : M A := fun st => (inr (f st), st).

(** stdpp's monad notations: [x ← m; k] and [m;; k]. *)
#[global] Instance M_ret : MRet M := @ret.
#[global] Instance M_bind : MBind M := fun A B k m => bind m k.

(** [console.error(label, error)]. *)
Definition console_error (label : jsstring) : M unit :=
  modify (set_console (fun c => c ++ [label])).

(** ** The array heap *)

(** Reading the array behind a reference; a reference to no array stands
    for [null], and reading a property of it throws. *)
Definition array_read (l : loc) : M (list Msg.t) :=
  fun st =>
    match heap st !! l with
    | Some a => (inr a, st)
    | None => (inl TypeError, st)
    end.

(** [a.length]. *)
Definition array_length (l : loc) : M Z :=
  a ← array_read l; mret (Z.of_nat (length a)).

(** A new array object. *)
Definition array_alloc (a : list Msg.t) : M loc :=
  fun st =>
    let l := fresh (dom (heap st)) in
    (inr l, set_heap (fun h => <[l := a]> h) st).

(** The elements that [slice(start)] copies: from index [start], counted
    from the end when negative. *)
Definition slice_from (start : Z) (a : list Msg.t) : list Msg.t :=
  let len := Z.of_nat (length a) in
  let k := if (start <? 0)%Z then Z.max (len + start) 0 else Z.min start len in
  drop (Z.to_nat k) a.

(** [a.slice(start)]: a new array, the receiver is only read. *)
Definition array_slice (l : loc) (start : Z) : M loc :=
  a ← array_read l; array_alloc (slice_from start a).

(** [a.forEach(x => { acc = f acc x })], for a callback that only
    assigns to a local variable. *)
Definition array_forEach {A} (l : loc) (f : A -> Msg.t -> A) (acc : A) : M A :=
  a ← array_read l; mret (fold_left f a acc).

(** ** The SQLite store ([database.get], [database.all], [database.run])

    Every operation first learns from the environment whether it fails;
    the promise of a failed operation is rejected and [await] throws. *)

Definition store_begin : M unit :=
  fun st =>
    match store_faults st with
    | [] => (inr tt, st)
    | true :: rest => (inl SqliteError, set_store_faults (fun _ => rest) st)
    | false :: rest => (inr tt, set_store_faults (fun _ => rest) st)
    end.

(** SQLite folds the case of the 26 ASCII letters only. *)
Definition ascii_fold (c : N) : N :=
  if ((65 <=? c) && (c <=? 90))%N then (c + 32)%N else c.

(** [text LIKE pattern]: [%] (37) stands for any run of characters and
    [_] (95) for any single one.  A character is taken to be one code
    unit, which it is in text without surrogates. *)
Fixpoint like (pattern text : jsstring) : bool :=
  match pattern with
  | [] => match text with [] => true | _ :: _ => false end
  | p :: pattern' =>
      if (p =? 37)%N then
        (fix any_run (t : jsstring) : bool :=
           like pattern' t
           || match t with
              | [] => false
              | _ :: t' => any_run t'
              end) text
      else
        match text with
        | [] => false
        | c :: text' =>
            ((p =? 95)%N || (ascii_fold p =? ascii_fold c)%N) && like pattern' text'
        end
  end.

(** [title LIKE ? OR content LIKE ? OR tags LIKE ?]; a NULL column
    matches nothing. *)
Definition knowledge_where (p1 p2 p3 : jsstring) (r : KnowledgeRow) : bool :=
  like p1 (Item.title (row_item r))
  || like p2 (Item.content (row_item r))
  || match tags r with
     | Some t => like p3 t
     | None => false
     end.

Definition score_le (a b : Z * positive) : bool :=
  (fst a * Z.pos (snd b) <=? fst b * Z.pos (snd a))%Z.

(** [ORDER BY relevance_score DESC]; rows of equal score keep the order
    of the table. *)
Fixpoint insert_by_relevance (r : KnowledgeRow) (sorted : list KnowledgeRow)
  : list KnowledgeRow :=
  match sorted with
  | [] => [r]
  | x :: rest =>
      if score_le (relevance_score x) (relevance_score r)
      then r :: x :: rest
      else x :: insert_by_relevance r rest
  end.

Definition order_by_relevance (rows : list KnowledgeRow) : list KnowledgeRow :=
  fold_right insert_by_relevance [] rows.

(** The [SELECT ... FROM financial_knowledge ... LIMIT 5] of
    [searchKnowledge]. *)
Definition select_knowledge (p1 p2 p3 : jsstring) : M (list Item.t) :=
  store_begin;;
  gets (fun st =>
          map row_item
              (firstn 5 (order_by_relevance
                           (List.filter (knowledge_where p1 p2 p3)
                                        (financial_knowledge st))))).

(** [SELECT plan, credits FROM users WHERE id = ?]; no row is
    [undefined]. *)
Definition select_user (userId : Z) : M (option User) :=
  store_begin;;
  gets (fun st => users st !! userId).

(** [UPDATE users SET credits = credits - 1 WHERE id = ?]. *)
Definition update_credits (userId : Z) : M unit :=
  store_begin;;
  modify (set_users
            (alter (fun usr => {| plan := plan usr; credits := credits usr - 1 |})
                   userId)).

(** [INSERT INTO api_logs (user_id, endpoint, method, status_code)]. *)
Definition insert_api_log (row : ApiLog) : M unit :=
  store_begin;;
  modify (set_api_logs (fun logs => logs ++ [row])).

(** ** Outbound calls and randomness *)

(** [axios.post]: the request is sent; a missing response or a status
    outside 200..299 rejects the promise, otherwise the body is
    [response.data]. *)
Definition axios_post (req : Request) : M value :=
  fun st =>
    let sent := set_requests (fun l => l ++ [req]) st in
    match http_replies st with
    | [] => (inl AxiosError, sent)
    | reply :: rest =>
        let st' := set_http_replies (fun _ => rest) sent in
        match reply with
        | NetworkFailure => (inl AxiosError, st')
        | HttpResponse status data =>
            if ((200 <=? status) && (status <? 300))%Z
            then (inr data, st')
            else (inl AxiosError, st')
        end
    end.

(** [Math.floor(Math.random() * 2)]: 1 when the draw is at least one
    half, 0 otherwise. *)
Definition random_index_of_two : M nat :=
  fun st =>
    match random_draws st with
    | [] => (inr 0, st)
    | high :: rest =>
        (inr (if high then 1 else 0), set_random_draws (fun _ => rest) st)
    end.

(** ** The service *)

(** [searchKnowledge(query, mode)]; [mode] is not used. *)
Definition searchKnowledge (query : jsstring) (mode : Mode) : M (list Item.t) :=
  try_catch
    (let keywords := extractKeywords query in
     let pattern := u "%" ++ join (u "%") keywords ++ u "%" in
     select_knowledge pattern pattern pattern)
    (fun error =>
       console_error (u "Erro ao buscar conhecimento:");;
       mret []).

(** The callback of [knowledge.forEach] in [buildContext]. *)
Definition add_item (context : jsstring) (item : Item.t) : jsstring :=
  context ++ u "- " ++ Item.title item ++ u ": " ++ Item.content item ++ [LF].

(** The callback of [recentHistory.forEach] in [buildContext]. *)
Definition add_msg (context : jsstring) (msg : Msg.t) : jsstring :=
  context ++ Msg.role msg ++ u ": " ++ Msg.content msg ++ [LF].

(** [buildContext(message, mode, knowledge, history)]; [history] is a
    reference to the caller's array. *)
Definition buildContext (message : jsstring) (mode : Mode)
    (knowledge : list Item.t) (history : loc) : M jsstring :=
  let context := financialPrompts mode ++ [LF; LF] in
  let context :=
    if (0 <? Z.of_nat (length knowledge))%Z then
      let context := context ++ u "Conhecimento relevante:" ++ [LF] in
      let context := fold_left add_item knowledge context in
      context ++ [LF]
    else context in
  len ← array_length history;
  context ←
    (if (0 <? len)%Z then
       let context := context ++ u "Contexto da conversa:" ++ [LF] in
       recentHistory ← array_slice history (-5);
       context ← array_forEach recentHistory add_msg context;
       mret (context ++ [LF])
     else mret context);
  mret (context ++ u "Pergunta do usuário: " ++ message ++ [LF; LF] ++ u "Resposta:").

(** The object that [callOpenAI] and [callDeepSeek] return, read from the
    body [response.data]:
    [{content: data.choices[0].message.content,
      tokensUsed: data.usage.total_tokens}]. *)
Definition completion_reply (data : value) : exn + Reply.t :=
  choices ← get_prop data (u "choices");
  choice ← get_first choices;
  message ← get_prop choice (u "message");
  text ← get_prop message (u "content");
  usage ← get_prop data (u "usage");
  total ← get_prop usage (u "total_tokens");
  inr (Reply.make text total).

(** The object that [callClaude] returns:
    [{content: data.content[0].text,
      tokensUsed: data.usage.input_tokens + data.usage.output_tokens}]. *)
Definition message_reply (data : value) : exn + Reply.t :=
  blocks ← get_prop data (u "content");
  block ← get_first blocks;
  text ← get_prop block (u "text");
  usage ← get_prop data (u "usage");
  input ← get_prop usage (u "input_tokens");
  usage' ← get_prop data (u "usage");
  output ← get_prop usage' (u "output_tokens");
  inr (Reply.make text (js_add input output)).

(** [callOpenAI(context)]. *)
Definition callOpenAI (context : jsstring) : M Reply.t :=
  data ← axios_post {| req_url := Profile.url openai_profile;
                       req_model := Profile.model openai_profile;
                       req_prompt := context;
                       req_max_tokens := Profile.maxTokens openai_profile |};
  lift (completion_reply data).

(** [callClaude(context)]. *)
Definition callClaude (context : jsstring) : M Reply.t :=
  data ← axios_post {| req_url := Profile.url claude_profile;
                       req_model := Profile.model claude_profile;
                       req_prompt := context;
                       req_max_tokens := Profile.maxTokens claude_profile |};
  lift (message_reply data).

(** [callDeepSeek(context)]. *)
Definition callDeepSeek (context : jsstring) : M Reply.t :=
  data ← axios_post {| req_url := Profile.url deepseek_profile;
                       req_model := Profile.model deepseek_profile;
                       req_prompt := context;
                       req_max_tokens := Profile.maxTokens deepseek_profile |};
  lift (completion_reply data).

(** The array [responses] of [getMockResponse]. *)
Definition responses : list Reply.t :=
  [ Reply.make (VStr mock_content_0) (VNum 150);
    Reply.make (VStr mock_content_1) (VNum 180) ].

(** [getMockResponse()]; [None] is [undefined]. *)
Definition getMockResponse : M (option Reply.t) :=
  i ← random_index_of_two;
  mret (responses !! i).

(** The [try] block of [callAIProvider]; without a matching branch the
    function returns [undefined]. *)
Definition dispatch (provider : jsstring) (context : jsstring)
  : M (option Reply.t) :=
  if jsstring_eqb provider openai then
    r ← callOpenAI context; mret (Some r)
  else if jsstring_eqb provider claude then
    r ← callClaude context; mret (Some r)
  else if jsstring_eqb provider deepseek then
    r ← callDeepSeek context; mret (Some r)
  else mret None.

(** [callAIProvider(provider, context)]. *)
Definition callAIProvider (provider : jsstring) (context : jsstring)
  : M (option Reply.t) :=
  try_catch
    (dispatch provider context)
    (fun error =>
       console_error (u "Erro no provedor " ++ provider ++ u ":");;
       getMockResponse).

(** [getFallbackResponse(mode)]: [fallbacks[mode] || fallbacks.consulta];
    each of the four modes has its entry, so the default is never taken. *)
Definition getFallbackResponse (mode : Mode) : DispatchResult :=
  match mode with
  | consulta =>
      {| content := VStr fallback_content_consulta; tokensUsed := VNum 50;
         provider := fallback; model := fallback |}
  | daytrade =>
      {| content := VStr fallback_content_daytrade; tokensUsed := VNum 50;
         provider := fallback; model := fallback |}
  | portfolio =>
      {| content := VStr fallback_content_portfolio; tokensUsed := VNum 50;
         provider := fallback; model := fallback |}
  | robot =>
      {| content := VStr fallback_content_robot; tokensUsed := VNum 50;
         provider := fallback; model := fallback |}
  end.

Definition is_metered (usr : User) : bool :=
  (jsstring_eqb (plan usr) (u "free") || jsstring_eqb (plan usr) (u "basic"))
  && (0 <? credits usr)%Z.

(** [logUsage(userId, provider, tokensUsed)], run with no other request
    between its awaits. *)
Definition logUsage (userId : Z) (provider : jsstring) (tokensUsed : value)
  : M unit :=
  try_catch
    (user ← select_user userId;
     match user with
     | Some usr => if is_metered usr then update_credits userId else mret tt
     | None => mret tt
     end;;
     insert_api_log {| user_id := userId; endpoint := u "ai_chat";
                       method := u "POST"; status_code := 200 |})
    (fun error => console_error (u "Erro ao registrar uso:")).

(** [r.f] for a possibly undefined [r]. *)
Definition field {A} (r : option Reply.t) (f : Reply.t -> A) : M A :=
  match r with
  | Some reply => mret (f reply)
  | None => throw TypeError
  end.

(** [this.providers[provider].model]. *)
Definition model_of (provider : jsstring) : M jsstring :=
  match providers provider with
  | Some profile => mret (Profile.model profile)
  | None => throw TypeError
  end.

(** [if (userId)]: [null] and 0 are falsy. *)
Definition truthy_id (userId : option Z) : option Z :=
  match userId with
  | Some id => if (id =? 0)%Z then None else Some id
  | None => None
  end.

(** [generateResponse(message, mode, userId, conversationHistory)], with
    all four arguments given.  [conversationHistory] is a reference to an
    array, as the route passes it, or [null] when the reference holds
    none. *)
Definition generateResponse (message : jsstring) (mode : Mode)
    (userId : option Z) (conversationHistory : loc) : M DispatchResult :=
  try_catch
    (relevantKnowledge ← searchKnowledge message mode;
     context ← buildContext message mode relevantKnowledge conversationHistory;
     let provider := selectProvider message mode in
     response ← callAIProvider provider context;
     match truthy_id userId with
     | Some id =>
         tokens ← field response Reply.tokensUsed;
         logUsage id provider (js_or tokens (VNum 100))
     | None => mret tt
     end;;
     text ← field response Reply.content;
     tokens ← field response Reply.tokensUsed;
     name ← model_of provider;
     mret {| content := text; provider := provider;
             tokensUsed := js_or tokens (VNum 100); model := name |})
    (fun error =>
       console_error (u "Erro no serviço de IA:");;
       mret (getFallbackResponse mode)).

(** * Vocabulary of the properties

    The predicates, the reference functions and the example states that
    the statements below are written with. *)

(** ** Provider selection rules *)

(** [message] contains [kw] when letter case is ignored: the test
    [message.toLowerCase().includes(kw)] of the source, for a keyword
    written in lower case. *)
Definition contains_ci (message : jsstring) (kw : string) : Prop :=
  includes (toLowerCase message) (u kw) = true.

Definition rule_code (message : jsstring) (mode : Mode) : Prop :=
  mode = robot \/ contains_ci message "código" \/ contains_ci message "ntfl".

Definition rule_analysis (message : jsstring) (mode : Mode) : Prop :=
  mode = daytrade \/ contains_ci message "análise técnica".

Definition rule_forecast (message : jsstring) : Prop :=
  contains_ci message "previsão" \/ contains_ci message "tendência".

(** ** Metering *)

(** No coming store operation fails. *)
Definition no_fault (faults : list bool) : bool := forallb negb faults.

Definition usage_row (userId : Z) : ApiLog :=
  {| user_id := userId; endpoint := u "ai_chat"; method := u "POST";
     status_code := 200 |}.

(** A free account with three credits, a premium account, no log yet. *)
Definition metering_state : State :=
  mkState ∅
          (<[ 7%Z := {| plan := u "free"; credits := 3 |} ]>
             {[ 8%Z := {| plan := u "premium"; credits := 3 |} ]})
          [] [] [] [] [] [] [].

(** ** Heap independence *)

(** [m] runs the same way whatever the heap holds, and hands the heap on
    as it found it. *)
Definition heap_blind {A} (m : M A) : Prop :=
  forall (g : gmap loc (list Msg.t) -> gmap loc (list Msg.t)) (st : State),
    m (set_heap g st) = ((m st).1, set_heap g (m st).2).

(** ** The prompt, section by section, as the specification words it *)

Definition item_line (item : Item.t) : jsstring :=
  u "- " ++ Item.title item ++ u ": " ++ Item.content item ++ [LF].

Definition turn_line (msg : Msg.t) : jsstring :=
  Msg.role msg ++ u ": " ++ Msg.content msg ++ [LF].

(** The last [n] turns, or all of them when there are fewer, oldest
    first. *)
Definition last_turns (n : nat) (turns : list Msg.t) : list Msg.t :=
  drop (length turns - n) turns.

(** The knowledge section: nothing for no snippet, otherwise a header,
    one line [- title: content] for each snippet, and an empty line. *)
Definition knowledge_section (knowledge : list Item.t) : jsstring :=
  match knowledge with
  | [] => []
  | _ :: _ =>
      u "Conhecimento relevante:" ++ [LF]
      ++ concat (map item_line knowledge) ++ [LF]
  end.

(** The conversation section: nothing for an empty history, otherwise a
    header, one line [role: content] for each of the last five turns, and
    an empty line. *)
Definition history_section (turns : list Msg.t) : jsstring :=
  match turns with
  | [] => []
  | _ :: _ =>
      u "Contexto da conversa:" ++ [LF]
      ++ concat (map turn_line (last_turns 5 turns)) ++ [LF]
  end.

(** The whole prompt: instruction block, the two optional sections, the
    user's message and the response marker. *)
Definition context_text (message : jsstring) (mode : Mode)
    (knowledge : list Item.t) (turns : list Msg.t) : jsstring :=
  financialPrompts mode ++ [LF; LF]
  ++ knowledge_section knowledge
  ++ history_section turns
  ++ u "Pergunta do usuário: " ++ message ++ [LF; LF] ++ u "Resposta:".

(** The state [buildContext] leaves: one new array, the copy made by
    [slice], when the history is not empty. *)
Definition after_buildContext (turns : list Msg.t) (st : State) : State :=
  match turns with
  | [] => st
  | _ :: _ =>
      set_heap (fun h => <[fresh (dom (heap st)) := last_turns 5 turns]> h) st
  end.

(** ** Example conversations *)

(** A history of seven turns and one snippet. *)
Definition seven_turns : list Msg.t :=
  [ Msg.make (u "user") (u "um"); Msg.make (u "assistant") (u "dois");
    Msg.make (u "user") (u "três"); Msg.make (u "assistant") (u "quatro");
    Msg.make (u "user") (u "cinco"); Msg.make (u "assistant") (u "seis");
    Msg.make (u "user") (u "sete") ].

Definition chat_state : State :=
  mkState {[ 1%positive := seven_turns ]} ∅ [] [] [] [] [] [] [].

Definition one_snippet : list Item.t :=
  [ Item.make (u "Dólar Futuro") (u "O DOLFUT é o contrato futuro do dólar.")
              (u "Futuros") (Some (u "DOLFUT")) ].

(** ** Outcome of the provider call *)

(** How the coming provider call ends in [st]: with a reply, or with a
    thrown error (no response, a status outside 200..299, or a body from
    which the reply cannot be read). *)
Definition provider_outcome (provider : jsstring) (st : State)
  : exn + option Reply.t :=
  (dispatch provider [] st).1.

Definition is_provider (id : jsstring) : Prop :=
  id = openai \/ id = claude \/ id = deepseek.

(** The part of [generateResponse] that follows context assembly. *)
Definition respond (message : jsstring) (mode : Mode) (userId : option Z)
    (context : jsstring) : M DispatchResult :=
  let provider := selectProvider message mode in
  response ← callAIProvider provider context;
  match truthy_id userId with
  | Some id =>
      tokens ← field response Reply.tokensUsed;
      logUsage id provider (js_or tokens (VNum 100))
  | None => mret tt
  end;;
  text ← field response Reply.content;
  tokens ← field response Reply.tokensUsed;
  name ← model_of provider;
  mret {| content := text; provider := provider;
          tokensUsed := js_or tokens (VNum 100); model := name |}.

(** The result built from a reply. *)
Definition result_from (provider name : jsstring) (reply : Reply.t)
  : DispatchResult :=
  {| content := Reply.content reply; provider := provider;
     tokensUsed := js_or (Reply.tokensUsed reply) (VNum 100); model := name |}.

(** The model name configured for a provider id. *)
Definition model_name (provider : jsstring) : jsstring :=
  match providers provider with
  | Some profile => Profile.model profile
  | None => []
  end.

(** The coming provider call fails: there is no response, or its status
    is outside 200..299, or the reply cannot be read from its body. *)
Definition call_fails (provider : jsstring) (st : State) : bool :=
  match http_replies st with
  | [] => true
  | NetworkFailure :: _ => true
  | HttpResponse status data :: _ =>
      negb ((200 <=? status)%Z && (status <? 300)%Z)
      || match (if jsstring_eqb provider claude
                then message_reply data
                else completion_reply data) with
         | inl _ => true
         | inr _ => false
         end
  end.

(** ** Example provider failures *)

(** An empty history; the provider does not answer, answers 500, or
    answers 200 with a body that has no [choices]. *)
Definition outage_state (reply : HttpReply) : State :=
  mkState {[ 1%positive := [] ]} ∅ [] [] [] [] [] [reply] [].

(** A body of the shape that the adapters read, with nothing in it:
    [{choices: [{message: {}}], usage: {}}]. *)
Definition hollow_body : value :=
  VObj [ (u "choices", VArr [ VObj [ (u "message", VObj []) ] ]);
         (u "usage", VObj []) ].

(** For the request "olá" in mode consulta: the provider call fails, and
    yet the result names openai and does not carry the fallback text of
    the mode. *)
Definition answers_without_fallback (reply : HttpReply) : Prop :=
  call_fails (selectProvider (u "olá") consulta) (outage_state reply) = true
  /\ match (generateResponse (u "olá") consulta None 1%positive
                             (outage_state reply)).1 with
     | inr r =>
         provider r = openai
         /\ provider r <> fallback
         /\ content r <> VStr fallback_content_consulta
     | inl _ => False
     end.

(** A body that the completion adapters can read. *)
Definition completion_body (text : jsstring) (total : value) : value :=
  VObj [ (u "choices",
          VArr [ VObj [ (u "message", VObj [ (u "content", VStr text) ]) ] ]);
         (u "usage", VObj [ (u "total_tokens", total) ]) ].

(** The same conversation twice: the provider is down in the first
    state and answers in the second. *)
Definition down_state : State :=
  mkState {[ 1%positive := seven_turns ]} ∅ [] [] [] [] []
          [HttpResponse 429 VNull] [true].

Definition up_state : State :=
  mkState {[ 1%positive := seven_turns ]} ∅ [] [] [] [] []
          [HttpResponse 200 (completion_body (u "Alta.") (VNum 42))] [].

(** ** Trimmed history and token counts *)

(** The state in which the history array holds its last five turns
    only. *)
Definition trim_history (history : loc) (turns : list Msg.t) (st : State)
  : State :=
  set_heap (fun h => <[history := last_turns 5 turns]> h) st.

(** A strictly positive integer. *)
Definition positive_count (v : value) : Prop :=
  exists n : Z, v = VNum n /\ (0 < n)%Z.

(** A count as a provider's usage accounting gives it: a non-negative
    integer, or none ([undefined], or the NaN that the sum of two missing
    counts is). *)
Definition natural_or_absent (v : value) : Prop :=
  v = VUndefined \/ v = VNaN \/ exists n : Z, v = VNum n /\ (0 <= n)%Z.

(** The provider answers 200 and reports a negative total. *)
Definition negative_count_state : State :=
  mkState {[ 1%positive := [] ]} ∅ [] [] [] [] []
          [HttpResponse 200 (completion_body (u "Alta.") (VNum (-1)))] [].

(** * Seeding the knowledge table

    [seedFinancialKnowledge] of the database module (database/init.js). *)

(** An entry of [knowledgeData]. *)
Record SeedItem := {
  seed_category : jsstring;
  seed_subcategory : jsstring;
  seed_title : jsstring;
  seed_content : jsstring;
  seed_tags : jsstring;
  seed_source : jsstring
}.

Definition knowledgeData : list SeedItem :=
  Eval vm_compute in
  [
    {| seed_category := u "Futuros"; seed_subcategory := u "WINFUT";
       seed_title := u "Mini Índice Bovespa Futuro";
       seed_content := u "O WINFUT é o contrato futuro do mini índice Bovespa, cada ponto vale R$ 0,20. É o ativo mais líquido para day trade no Brasil.";
       seed_tags := u "winfut,ibovespa,day trade,futuros";
       seed_source := u "B3" |};
    {| seed_category := u "Futuros"; seed_subcategory := u "INDFUT";
       seed_title := u "Índice Bovespa Futuro";
       seed_content := u "O INDFUT é o contrato futuro do índice Bovespa, cada ponto vale R$ 1,00. Indicado para operações com maior capital.";
       seed_tags := u "indfut,ibovespa,futuros";
       seed_source := u "B3" |};
    {| seed_category := u "Futuros"; seed_subcategory := u "DOLFUT";
       seed_title := u "Dólar Futuro";
       seed_content := u "O DOLFUT é o contrato futuro do dólar americano, cada ponto vale R$ 50,00. Muito usado para hedge cambial.";
       seed_tags := u "dolfut,dolar,cambio,hedge";
       seed_source := u "B3" |};
    {| seed_category := u "Estratégias"; seed_subcategory := u "Scalping";
       seed_title := u "Estratégia de Scalping";
       seed_content := u "Scalping é uma estratégia de trading que busca lucros pequenos em operações muito rápidas, geralmente durando segundos ou minutos.";
       seed_tags := u "scalping,day trade,estrategia";
       seed_source := u "SharkMind AI" |};
    {| seed_category := u "Indicadores"; seed_subcategory := u "MACD";
       seed_title := u "Moving Average Convergence Divergence";
       seed_content := u "O MACD é um indicador de momentum que mostra a relação entre duas médias móveis do preço de um ativo.";
       seed_tags := u "macd,indicador,analise tecnica";
       seed_source := u "Análise Técnica" |}
  ].

Definition set_financial_knowledge
    (f : list KnowledgeRow -> list KnowledgeRow) (st : State) : State :=
  mkState (heap st) (users st) (api_logs st) (f (financial_knowledge st))
          (console st) (requests st) (store_faults st) (http_replies st)
          (random_draws st).

(** A row of the table has this title. *)
Definition has_title (table : list KnowledgeRow) (title : jsstring) : bool :=
  existsb (fun r => jsstring_eqb (Item.title (row_item r)) title) table.

(** [SELECT id FROM financial_knowledge WHERE title = ?]: whether a row
    comes back. *)
Definition select_title (title : jsstring) : M bool :=
  store_begin;;
  gets (fun st => has_title (financial_knowledge st) title).

(** The row that the [INSERT] of the seeding makes of an item; the state
    holds no [source] column, and the relevance takes its default 1.0. *)
Definition seed_row (item : SeedItem) : KnowledgeRow :=
  {| row_item := Item.make (seed_title item) (seed_content item)
                           (seed_category item) (Some (seed_subcategory item));
     tags := Some (seed_tags item);
     relevance_score := (1%Z, 1%positive) |}.

(** [INSERT INTO financial_knowledge (category, subcategory, title,
    content, tags, source)]. *)
Definition insert_knowledge (item : SeedItem) : M unit :=
  store_begin;;
  modify (set_financial_knowledge (fun table => table ++ [seed_row item])).

(** [for (const item of items) { await body(item) }]. *)
Fixpoint for_each {A} (items : list A) (body : A -> M unit) : M unit :=
  match items with
  | [] => mret tt
  | item :: rest => body item;; for_each rest body
  end.

(** The body of the loop of [seedFinancialKnowledge]. *)
Definition seed_item (item : SeedItem) : M unit :=
  exists_ ← select_title (seed_title item);
  if (exists_ : bool) then mret tt else insert_knowledge item.

(** [seedFinancialKnowledge()]. *)
Definition seedFinancialKnowledge : M unit :=
  for_each knowledgeData seed_item.

(** What seeding makes of a table when the store answers. *)
Definition seeded (items : list SeedItem) (table : list KnowledgeRow)
  : list KnowledgeRow :=
  fold_left
    (fun table item =>
       if has_title table (seed_title item) then table
       else table ++ [seed_row item])
    items table.

(** * The chat route, from the provider call on

    The part of [POST /message] (routes/chat.js) that calls the service:
    [generateResponse], the [INSERT] of the answer, and the credit update.
    [conversation] is the id of the conversation, if there is one. *)

(** [INSERT INTO messages (...)]: a store operation on a table that the
    state does not hold; it can fail as any other. *)
Definition insert_message : M unit := store_begin.

(** The block under "Atualizar créditos do usuário"; the result is
    [updatedCredits], [None] for [null]. *)
Definition update_credits_after (userId : option Z) : M (option Z) :=
  match truthy_id userId with
  | Some id =>
      user ← select_user id;
      match user with
      | Some usr =>
          if is_metered usr
          then update_credits id;; mret (Some (credits usr - 1)%Z)
          else mret (Some (credits usr))
      | None => mret None
      end
  | None => mret None
  end.

(** From "Gerar resposta da IA" to the values that [res.json] sends:
    the answer and the reported balance. *)
Definition answer_message (message : jsstring) (mode : Mode)
    (userId : option Z) (conversation : option Z) (conversationHistory : loc)
  : M (DispatchResult * option Z) :=
  aiResponse ← generateResponse message mode userId conversationHistory;
  match conversation with
  | Some _ => insert_message
  | None => mret tt
  end;;
  updatedCredits ← update_credits_after userId;
  mret (aiResponse, updatedCredits).

(** * Requests that take turns

    [logUsage] is an [async] function: at each [await] it is set aside
    until the store has performed the operation, and other requests run
    meanwhile.  The store performs one operation at a time. *)









(** * Vocabulary of the further properties *)

(** ** Fields that a computation leaves alone *)

(** [m] ends with the same [proj] of the state as it started with. *)
Definition preserves {A B} (proj : State -> B) (m : M A) : Prop :=
  forall st : State, proj (m st).2 = proj st.

(** ** Requests and charges *)

(** The request that an adapter sends for the prompt [context]. *)
Definition request_for (profile : Profile.t) (context : jsstring) : Request :=
  {| req_url := Profile.url profile; req_model := Profile.model profile;
     req_prompt := context; req_max_tokens := Profile.maxTokens profile |}.

(** What one metering call does to the accounts: one credit less for
    [userId] when that account is metered, nothing otherwise. *)
Definition charge (userId : Z) (us : gmap Z User) : gmap Z User :=
  match us !! userId with
  | Some usr =>
      if is_metered usr
      then alter (fun usr => {| plan := plan usr; credits := credits usr - 1 |})
                 userId us
      else us
  | None => us
  end.

(** ** Example states of the further properties *)

(** A request whose history reference holds no array. *)
Definition no_history_state : State :=
  mkState ∅ {[ 7%Z := {| plan := u "free"; credits := 3 |} ]} [] [] [] [] []
          [HttpResponse 200 VNull] [].

(** A free account with three credits in a conversation of seven turns;
    the provider answers. *)
Definition member_state : State :=
  mkState {[ 1%positive := seven_turns ]}
          {[ 7%Z := {| plan := u "free"; credits := 3 |} ]} [] [] [] [] []
          [HttpResponse 200
             (VObj [ (u "choices",
                      VArr [ VObj [ (u "message",
                                     VObj [ (u "content", VStr (u "Alta.")) ]) ] ]);
                     (u "usage", VObj [ (u "total_tokens", VNum 42) ]) ])]
          [].


(** The store answers the two first operations and fails at the third. *)
Definition failing_log_state : State :=
  mkState ∅ {[ 7%Z := {| plan := u "basic"; credits := 10 |} ]} [] [] [] []
          [false; false; true] [] [].

(** ** Mock answers *)


(** ** Words *)

(** No code unit of [w] is white space. *)
Definition no_space (w : jsstring) : Prop :=
  Forall (fun c => isWhiteSpace c = false) w.

(** A word of a text: not empty and without white space. *)
Definition is_word (w : jsstring) : Prop := w <> [] /\ no_space w.

(** A separator between two words: a run of white space. *)
Definition is_gap (sep : jsstring) : Prop :=
  sep <> [] /\ Forall (fun c => isWhiteSpace c = true) sep.

(** White space only, possibly none. *)
Definition white (s : jsstring) : Prop :=
  Forall (fun c => isWhiteSpace c = true) s.

(** A text of words: [first], then each further word after its
    separator. *)
Fixpoint spaced (first : jsstring) (more : list (jsstring * jsstring))
  : jsstring :=
  match more with
  | [] => first
  | (sep, w) :: more' => first ++ sep ++ spaced w more'
  end.

(** The empty piece that [split] leaves where a text begins or ends with
    white space. *)
Definition edge (s : jsstring) : list jsstring :=
  match s with
  | [] => []
  | _ :: _ => [ [] ]
  end.

(** Every code unit of [s] is in Basic Latin or the Latin-1 Supplement
    (below U+0100), where [lower_unit] is the lower-casing of the
    language. *)
Definition latin1 (s : jsstring) : Prop :=
  forallb (fun c => (c <? 256)%N) s = true.



(** ** Knowledge queries *)

(** The pattern that [searchKnowledge] binds to the three [LIKE]s: the
    keywords of the query, with [%] before, between and after them. *)
Definition query_pattern (query : jsstring) : jsstring :=
  u "%" ++ join (u "%") (extractKeywords query) ++ u "%".

(** The rows that the [WHERE] clause of the query selects. *)
Definition matching_rows (query : jsstring) (st : State) : list KnowledgeRow :=
  List.filter
    (knowledge_where (query_pattern query) (query_pattern query)
                     (query_pattern query))
    (financial_knowledge st).

(** [a] is at least as relevant as [b]. *)
Definition at_least_as_relevant (a b : KnowledgeRow) : Prop :=
  score_le (relevance_score b) (relevance_score a) = true.


(** A table of three rows, the second more relevant than the others. *)
Definition dolar_row : KnowledgeRow :=
  {| row_item := Item.make (u "Dólar Futuro") (u "Contrato de dólar.")
                           (u "Futuros") (Some (u "DOLFUT"));
     tags := Some (u "dolfut,dolar"); relevance_score := (1%Z, 1%positive) |}.

Definition winfut_row : KnowledgeRow :=
  {| row_item := Item.make (u "Mini Índice") (u "O WINFUT é o mini índice.")
                           (u "Futuros") (Some (u "WINFUT"));
     tags := None; relevance_score := (3%Z, 2%positive) |}.

Definition macd_row : KnowledgeRow :=
  {| row_item := Item.make (u "MACD") (u "Indicador de momentum.")
                           (u "Indicadores") None;
     tags := Some (u "macd"); relevance_score := (1%Z, 1%positive) |}.

Definition three_rows : list KnowledgeRow := [dolar_row; winfut_row; macd_row].

Definition library_state : State :=
  mkState ∅ ∅ [] three_rows [] [] [] [] [].

(** A row about a futures contract, with its relevance. *)
Definition contract_row (title : jsstring) (score : Z * positive)
  : KnowledgeRow :=
  {| row_item := Item.make title (u "Contrato futuro negociado na B3.")
                           (u "Futuros") None;
     tags := Some (u "futuros"); relevance_score := score |}.

(** A table of eight rows, seven of them about futures contracts, in no
    order of relevance. *)
Definition shelf_rows : list KnowledgeRow :=
  [ contract_row (u "Milho") (3%Z, 1%positive);
    contract_row (u "Boi Gordo") (1%Z, 2%positive);
    contract_row (u "WINFUT") (7%Z, 1%positive);
    macd_row;
    contract_row (u "Café") (2%Z, 1%positive);
    contract_row (u "DOLFUT") (6%Z, 1%positive);
    contract_row (u "Soja") (5%Z, 2%positive);
    contract_row (u "INDFUT") (4%Z, 1%positive) ].

Definition shelf_state : State :=
  mkState ∅ ∅ [] shelf_rows [] [] [] [] [].

(** ** Reading a provider's body *)

(** The reply that the adapter of [provider] reads from a body. *)
Definition adapter_reply (provider : jsstring) (data : value) : exn + Reply.t :=
  if jsstring_eqb provider claude then message_reply data
  else completion_reply data.

(** The body has no usage object. *)
Definition lacks_usage (data : value) : Prop :=
  get_prop data (u "usage") = inr VUndefined
  \/ get_prop data (u "usage") = inr VNull.

(** A completion with its text but without usage accounting. *)
Definition text_only_state : State :=
  mkState {[ 1%positive := [] ]} ∅ [] [] [] [] []
          [HttpResponse 200
             (VObj [ (u "choices",
                      VArr [ VObj [ (u "message",
                                     VObj [ (u "content", VStr (u "Alta.")) ]) ] ]) ])]
          [].

(** * Properties *)

(** ** Provider selector *)

Lemma provider_ids_distinct :
  openai <> claude /\ openai <> deepseek /\ claude <> deepseek
  /\ openai <> fallback /\ claude <> fallback /\ deepseek <> fallback.
Proof. repeat split; discriminate. Qed.

(** C2.  [selectProvider] is a function of the message and the mode alone
    and always returns one of the three provider ids.  Exactly one of four
    cases applies, in priority order: the code rule (mode robot, or the
    message contains "código" or "ntfl") gives openai; otherwise the
    analysis rule (mode daytrade, or the message contains "análise
    técnica") gives claude; otherwise the forecast rule (the message
    contains "previsão" or "tendência") gives deepseek; otherwise openai.
    Containment ignores letter case in all three rules.  In particular
    mode robot gives openai whatever the message contains. *)
Theorem selectProvider_priority (message : jsstring) (mode : Mode) :
  ((rule_code message mode /\ selectProvider message mode = openai)
   \/ (~ rule_code message mode /\ rule_analysis message mode
       /\ selectProvider message mode = claude)
   \/ (~ rule_code message mode /\ ~ rule_analysis message mode
       /\ rule_forecast message /\ selectProvider message mode = deepseek)
   \/ (~ rule_code message mode /\ ~ rule_analysis message mode
       /\ ~ rule_forecast message /\ selectProvider message mode = openai))
  /\ (forall other : jsstring, selectProvider other robot = openai)
  /\ selectProvider (u "gere um código que siga a tendência") robot = openai
  /\ selectProvider (u "qual a tendência do dólar") consulta = deepseek.
Proof.
  split; [| split; [intros other; reflexivity | split; vm_compute; reflexivity]].
  unfold rule_code, rule_analysis, rule_forecast, contains_ci, selectProvider.
  destruct (includes (toLowerCase message) (u "código")) eqn:Hcode;
    destruct (includes (toLowerCase message) (u "ntfl")) eqn:Hntfl;
    destruct (includes (toLowerCase message) (u "análise técnica")) eqn:Han;
    destruct (includes (toLowerCase message) (u "previsão")) eqn:Hprev;
    destruct (includes (toLowerCase message) (u "tendência")) eqn:Htend;
    destruct mode; cbn [orb];
    first
      [ solve [ left; split; [ tauto | reflexivity ] ]
      | solve [ right; left; split; [ intuition discriminate | split; [ tauto | reflexivity ] ] ]
      | solve [ right; right; left;
                split; [ intuition discriminate
                       | split; [ intuition discriminate | split; [ tauto | reflexivity ] ] ] ]
      | solve [ right; right; right;
                split; [ intuition discriminate
                       | split; [ intuition discriminate
                                | split; [ intuition discriminate | reflexivity ] ] ] ] ].
Qed.

(** ** Keyword extractor *)

Lemma In_firstn {A} (n : nat) (l : list A) (x : A) :
  In x (firstn n l) -> In x l.
Proof.
  intros H. rewrite <- (firstn_skipn n l). apply in_or_app. now left.
Qed.

(** Against C5 as stated: the empty text does have a keyword, since
    [split] gives the one empty word, which every vocabulary term
    includes. *)
Lemma extractKeywords_empty_not_nil : extractKeywords (u "") <> [].
Proof. vm_compute. discriminate. Qed.

(** C5, as the code has it.  [extractKeywords] of the empty text is the
    sequence of one empty word.  The function is total: every text has a
    result, of at most ten words, each of them kept by the filter. *)
Theorem extractKeywords_empty :
  extractKeywords (u "") = [ [] ]
  /\ forall text : jsstring,
       exists words : list jsstring,
         extractKeywords text = words
         /\ length words <= 10
         /\ Forall (fun w => isKeyword w = true) words.
Proof.
  split; [vm_compute; reflexivity |].
  intros text. exists (extractKeywords text). split; [reflexivity |].
  unfold extractKeywords. split.
  - apply firstn_le_length.
  - apply Forall_forall. intros w Hw.
    apply list_elem_of_In, In_firstn, List.filter_In in Hw. tauto.
Qed.

(** Against C6 as stated: the returned words are those of the lower-cased
    text, so the token [WINFUT] in capitals is not among them. *)
Lemma extractKeywords_winfut_not_in_capitals :
  ~ In (u "WINFUT") (extractKeywords (u "Qual a tendência do WINFUT hoje")).
Proof. vm_compute. intuition discriminate. Qed.

(** C6, as the code has it.  For the text "Qual a tendência do WINFUT
    hoje" the result is the four lower-cased words "a", "tendência", "do"
    and "winfut": it contains "winfut" and "tendência", has no duplicate
    and at most ten words. *)
Theorem extractKeywords_winfut :
  let words := extractKeywords (u "Qual a tendência do WINFUT hoje") in
  words = [u "a"; u "tendência"; u "do"; u "winfut"]
  /\ In (u "winfut") words
  /\ In (u "tendência") words
  /\ toLowerCase (u "WINFUT") = u "winfut"
  /\ NoDup words
  /\ length words <= 10.
Proof.
  assert (H : extractKeywords (u "Qual a tendência do WINFUT hoje")
              = [u "a"; u "tendência"; u "do"; u "winfut"])
    by (vm_compute; reflexivity).
  cbv zeta. rewrite H. split; [reflexivity |].
  split; [do 3 right; left; reflexivity |].
  split; [right; left; reflexivity |].
  split; [vm_compute; reflexivity |].
  split; [| cbn; lia].
  apply (bool_decide_unpack _). vm_compute. exact I.
Qed.

(** ** Running the monad *)

Lemma jsstring_eqb_eq (a b : jsstring) : jsstring_eqb a b = true <-> a = b.
Proof. unfold jsstring_eqb. apply bool_decide_eq_true. Qed.

Lemma jsstring_eqb_refl (a : jsstring) : jsstring_eqb a a = true.
Proof. now apply jsstring_eqb_eq. Qed.

Lemma bind_inr {A B} (m : M A) (k : A -> M B) (st st' : State) (a : A) :
  m st = (inr a, st') -> (m ≫= k) st = k a st'.
Proof. intros H. unfold mbind, M_bind, bind. now rewrite H. Qed.

Lemma bind_inl {A B} (m : M A) (k : A -> M B) (st st' : State) (e : exn) :
  m st = (inl e, st') -> (m ≫= k) st = (inl e, st').
Proof. intros H. unfold mbind, M_bind, bind. now rewrite H. Qed.

Lemma try_catch_inr {A} (m : M A) (h : exn -> M A) (st st' : State) (a : A) :
  m st = (inr a, st') -> try_catch m h st = (inr a, st').
Proof. intros H. unfold try_catch. now rewrite H. Qed.

Lemma try_catch_inl {A} (m : M A) (h : exn -> M A) (st st' : State) (e : exn) :
  m st = (inl e, st') -> try_catch m h st = h e st'.
Proof. intros H. unfold try_catch. now rewrite H. Qed.

Lemma State_ext (a b : State) :
  heap a = heap b -> users a = users b -> api_logs a = api_logs b ->
  financial_knowledge a = financial_knowledge b -> console a = console b ->
  requests a = requests b -> store_faults a = store_faults b ->
  http_replies a = http_replies b -> random_draws a = random_draws b ->
  a = b.
Proof. destruct a, b; cbn; intros; subst; reflexivity. Qed.

Lemma set_store_faults_same (st : State) :
  set_store_faults (fun _ => store_faults st) st = st.
Proof. now destruct st. Qed.

Lemma store_begin_ok (st : State) :
  no_fault (store_faults st) = true ->
  exists rest,
    store_begin st = (inr tt, set_store_faults (fun _ => rest) st)
    /\ no_fault rest = true.
Proof.
  intros H. unfold store_begin.
  destruct (store_faults st) as [| [|] rest] eqn:E; cbn in H; try discriminate.
  - exists []. split; [| reflexivity]. f_equal.
    rewrite <- E. symmetry. apply set_store_faults_same.
  - now exists rest.
Qed.

(** ** Usage meter *)

Lemma logUsage_run (userId : Z) (provider : jsstring) (tokens : value)
    (st : State) :
  no_fault (store_faults st) = true ->
  exists rest,
    logUsage userId provider tokens st =
      (inr tt,
       set_store_faults (fun _ => rest)
         (set_api_logs (fun logs => logs ++ [usage_row userId])
            (set_users
               (fun us =>
                  match us !! userId with
                  | Some usr =>
                      if is_metered usr
                      then alter (fun usr => {| plan := plan usr;
                                                credits := credits usr - 1 |})
                                 userId us
                      else us
                  | None => us
                  end) st))).
Proof.
  intros Hok. unfold logUsage.
  destruct (store_begin_ok st Hok) as (r1 & E1 & Hok1).
  assert (Hsel : select_user userId st =
                 (inr (users st !! userId), set_store_faults (fun _ => r1) st)).
  { unfold select_user. erewrite bind_inr by exact E1. reflexivity. }
  destruct (users st !! userId) as [usr |] eqn:Hu.
  - destruct (is_metered usr) eqn:Hm.
    + set (st1 := set_store_faults (fun _ => r1) st) in *.
      destruct (store_begin_ok st1 Hok1) as (r2 & E2 & Hok2).
      set (st2 := set_users
                    (alter (fun usr => {| plan := plan usr;
                                          credits := credits usr - 1 |}) userId)
                    (set_store_faults (fun _ => r2) st1)).
      destruct (store_begin_ok st2 Hok2) as (r3 & E3 & Hok3).
      exists r3. erewrite try_catch_inr; [reflexivity |].
      erewrite bind_inr by exact Hsel. cbv beta iota. rewrite Hm.
      erewrite bind_inr.
      2:{ unfold update_credits. erewrite bind_inr by exact E2. reflexivity. }
      unfold insert_api_log. erewrite bind_inr by exact E3.
      unfold modify. f_equal. subst st2 st1.
      apply State_ext; cbn; try reflexivity. now rewrite Hu, Hm.
    + set (st1 := set_store_faults (fun _ => r1) st) in *.
      destruct (store_begin_ok st1 Hok1) as (r2 & E2 & Hok2).
      exists r2. erewrite try_catch_inr; [reflexivity |].
      erewrite bind_inr by exact Hsel. cbv beta iota. rewrite Hm.
      erewrite bind_inr by reflexivity.
      unfold insert_api_log. erewrite bind_inr by exact E2.
      unfold modify. f_equal. subst st1.
      apply State_ext; cbn; try reflexivity. now rewrite Hu, Hm.
  - set (st1 := set_store_faults (fun _ => r1) st) in *.
    destruct (store_begin_ok st1 Hok1) as (r2 & E2 & Hok2).
    exists r2. erewrite try_catch_inr; [reflexivity |].
    erewrite bind_inr by exact Hsel. cbv beta iota.
    erewrite bind_inr by reflexivity.
    unfold insert_api_log. erewrite bind_inr by exact E2.
    unfold modify. f_equal. subst st1.
    apply State_ext; cbn; try reflexivity. now rewrite Hu.
Qed.

(** C3.  One [logUsage] call for an existing account, while the store
    answers, appends exactly one row to [api_logs] and leaves every other
    account alone.  On the free or basic plan with a positive balance the
    balance goes down by exactly 1; on the premium or unlimited plan the
    accounts are unchanged.  The [tokensUsed] argument has no influence. *)
Theorem logUsage_metering (userId : Z) (provider : jsstring)
    (tokensUsed : value) (usr : User) (st : State) :
  users st !! userId = Some usr ->
  no_fault (store_faults st) = true ->
  let st' := (logUsage userId provider tokensUsed st).2 in
  (logUsage userId provider tokensUsed st).1 = inr tt
  /\ api_logs st' = api_logs st ++ [usage_row userId]
  /\ (forall other : Z, other <> userId -> users st' !! other = users st !! other)
  /\ ((plan usr = u "free" \/ plan usr = u "basic") ->
      (0 < credits usr)%Z ->
      users st' !! userId =
        Some {| plan := plan usr; credits := credits usr - 1 |})
  /\ ((plan usr = u "premium" \/ plan usr = u "unlimited") ->
      users st' = users st)
  /\ (forall tokens' : value,
        logUsage userId provider tokens' st
        = logUsage userId provider tokensUsed st).
Proof.
  intros Hu Hok.
  destruct (logUsage_run userId provider tokensUsed st Hok) as (rest & E).
  cbv zeta.
  refine (conj _ (conj _ (conj _ (conj _ (conj _ (fun _ => eq_refl))))));
    rewrite E; cbn; rewrite ?Hu.
  - reflexivity.
  - reflexivity.
  - intros other Hne. destruct (is_metered usr); [| reflexivity].
    now rewrite lookup_alter_ne.
  - intros Hplan Hpos.
    assert (Hm : is_metered usr = true).
    { unfold is_metered. apply andb_true_intro. split.
      - apply orb_true_iff. destruct Hplan as [-> | ->]; [left | right];
          apply jsstring_eqb_refl.
      - now apply Z.ltb_lt. }
    rewrite Hm, lookup_alter_eq, Hu. reflexivity.
  - intros Hplan.
    assert (Hm : is_metered usr = false).
    { unfold is_metered. destruct Hplan as [-> | ->]; reflexivity. }
    now rewrite Hm.
Qed.

Lemma logUsage_metering_witness :
  users metering_state !! 7%Z = Some {| plan := u "free"; credits := 3 |}
  /\ users (logUsage 7 openai (VNum 4321) metering_state).2 !! 7%Z
     = Some {| plan := u "free"; credits := 2 |}
  /\ users (logUsage 7 openai (VNum 4321) metering_state).2 !! 8%Z
     = Some {| plan := u "premium"; credits := 3 |}
  /\ length (api_logs (logUsage 7 openai (VNum 4321) metering_state).2) = 1.
Proof.
  destruct (logUsage_metering 7 openai (VNum 4321)
              {| plan := u "free"; credits := 3 |} metering_state
              eq_refl eq_refl)
    as (_ & Hlog & Hother & Hdec & _).
  cbv zeta in *. split; [reflexivity |]. split; [| split].
  - rewrite Hdec; [reflexivity | now left | reflexivity].
  - rewrite Hother by discriminate. reflexivity.
  - rewrite Hlog. reflexivity.
Defined.

(** ** Computations that neither read nor write the array heap *)

Create HintDb heap_blind.

Lemma heap_blind_ret {A} (a : A) : heap_blind (mret a : M A).
Proof. intros g st. reflexivity. Qed.

Lemma heap_blind_throw {A} (e : exn) : heap_blind (throw e : M A).
Proof. intros g st. reflexivity. Qed.

Lemma heap_blind_lift {A} (r : exn + A) : heap_blind (lift r).
Proof. intros g st. reflexivity. Qed.

Lemma heap_blind_bind {A B} (m : M A) (k : A -> M B) :
  heap_blind m -> (forall a, heap_blind (k a)) -> heap_blind (m ≫= k).
Proof.
  intros Hm Hk g st. unfold mbind, M_bind, bind. rewrite Hm.
  destruct (m st) as [[e | a] st']; cbn; [reflexivity |].
  rewrite Hk. reflexivity.
Qed.

Lemma heap_blind_try_catch {A} (m : M A) (h : exn -> M A) :
  heap_blind m -> (forall e, heap_blind (h e)) -> heap_blind (try_catch m h).
Proof.
  intros Hm Hh g st. unfold try_catch. rewrite Hm.
  destruct (m st) as [[e | a] st']; cbn; [| reflexivity].
  rewrite Hh. reflexivity.
Qed.

Lemma heap_blind_store_begin : heap_blind store_begin.
Proof.
  intros g st. unfold store_begin. cbn.
  destruct (store_faults st) as [| [|] rest]; reflexivity.
Qed.

Lemma heap_blind_console_error (label : jsstring) :
  heap_blind (console_error label).
Proof. intros g st. reflexivity. Qed.

Lemma heap_blind_axios_post (req : Request) : heap_blind (axios_post req).
Proof.
  intros g st. unfold axios_post. cbn.
  destruct (http_replies st) as [| [| status data] rest]; try reflexivity.
  destruct ((200 <=? status)%Z && (status <? 300)%Z); reflexivity.
Qed.

Lemma heap_blind_random_index_of_two : heap_blind random_index_of_two.
Proof.
  intros g st. unfold random_index_of_two. cbn.
  destruct (random_draws st) as [| high rest]; reflexivity.
Qed.

Lemma heap_blind_select_knowledge (p1 p2 p3 : jsstring) :
  heap_blind (select_knowledge p1 p2 p3).
Proof.
  apply heap_blind_bind; [apply heap_blind_store_begin |].
  intros _ g st. reflexivity.
Qed.

Lemma heap_blind_select_user (userId : Z) : heap_blind (select_user userId).
Proof.
  apply heap_blind_bind; [apply heap_blind_store_begin |].
  intros _ g st. reflexivity.
Qed.

Lemma heap_blind_update_credits (userId : Z) :
  heap_blind (update_credits userId).
Proof.
  apply heap_blind_bind; [apply heap_blind_store_begin |].
  intros _ g st. reflexivity.
Qed.

Lemma heap_blind_insert_api_log (row : ApiLog) :
  heap_blind (insert_api_log row).
Proof.
  apply heap_blind_bind; [apply heap_blind_store_begin |].
  intros _ g st. reflexivity.
Qed.

#[global] Hint Resolve heap_blind_ret heap_blind_throw heap_blind_lift
  heap_blind_store_begin heap_blind_console_error heap_blind_axios_post
  heap_blind_random_index_of_two heap_blind_select_knowledge
  heap_blind_select_user heap_blind_update_credits
  heap_blind_insert_api_log : heap_blind.

Ltac heap_blind_step :=
  first [ apply heap_blind_try_catch
        | apply heap_blind_bind
        | solve [ auto with heap_blind ] ].

Lemma heap_blind_searchKnowledge (query : jsstring) (mode : Mode) :
  heap_blind (searchKnowledge query mode).
Proof.
  unfold searchKnowledge. heap_blind_step; [auto with heap_blind |].
  intros e. heap_blind_step; intros; auto with heap_blind.
Qed.

Lemma heap_blind_getMockResponse : heap_blind getMockResponse.
Proof.
  unfold getMockResponse. heap_blind_step; intros; auto with heap_blind.
Qed.

Lemma heap_blind_dispatch (provider context : jsstring) :
  heap_blind (dispatch provider context).
Proof.
  unfold dispatch, callOpenAI, callClaude, callDeepSeek.
  repeat match goal with
         | |- heap_blind (if ?b then _ else _) => destruct b
         end;
    repeat (heap_blind_step; intros); auto with heap_blind.
Qed.

Lemma heap_blind_callAIProvider (provider context : jsstring) :
  heap_blind (callAIProvider provider context).
Proof.
  unfold callAIProvider. apply heap_blind_try_catch.
  - apply heap_blind_dispatch.
  - intros e. apply heap_blind_bind; [auto with heap_blind |].
    intros _. apply heap_blind_getMockResponse.
Qed.

Lemma heap_blind_logUsage (userId : Z) (provider : jsstring) (tokens : value) :
  heap_blind (logUsage userId provider tokens).
Proof.
  unfold logUsage. apply heap_blind_try_catch; [| auto with heap_blind].
  apply heap_blind_bind; [auto with heap_blind |].
  intros [usr |]; (apply heap_blind_bind; [| auto with heap_blind]).
  - destruct (is_metered usr); auto with heap_blind.
  - auto with heap_blind.
Qed.

Lemma set_heap_same (st : State) : set_heap (fun _ => heap st) st = st.
Proof. now destruct st. Qed.

(** A heap-blind computation ends with the heap it started with. *)
Lemma heap_blind_heap {A} (m : M A) (st : State) :
  heap_blind m -> heap (m st).2 = heap st.
Proof.
  intros H. specialize (H (fun _ => heap st) st).
  rewrite set_heap_same in H. rewrite H at 1. reflexivity.
Qed.

(** ** Knowledge retriever *)

Lemma select_knowledge_length (p1 p2 p3 : jsstring) (st st' : State)
    (items : list Item.t) :
  select_knowledge p1 p2 p3 st = (inr items, st') -> length items <= 5.
Proof.
  unfold select_knowledge, mbind, M_bind, bind, gets.
  destruct (store_begin st) as [[e | []] st1]; [discriminate |].
  intros [= <- _]. rewrite length_map. apply firstn_le_length.
Qed.

Lemma select_knowledge_fault (p1 p2 p3 : jsstring) (st : State)
    (rest : list bool) :
  store_faults st = true :: rest ->
  select_knowledge p1 p2 p3 st
  = (inl SqliteError, set_store_faults (fun _ => rest) st).
Proof.
  intros H. unfold select_knowledge. apply bind_inl.
  unfold store_begin. now rewrite H.
Qed.

(** How [searchKnowledge] ends: with at most five snippets, none after a
    store failure, in a state that differs from the first one in the
    console and the consumed store outcome only. *)
Lemma searchKnowledge_run (query : jsstring) (mode : Mode) (st : State) :
  exists (items : list Item.t) (f : list jsstring -> list jsstring)
         (g : list bool -> list bool),
    searchKnowledge query mode st
    = (inr items, set_console f (set_store_faults g st))
    /\ length items <= 5
    /\ match store_faults st with
       | true :: _ => items = []
       | _ => True
       end.
Proof.
  unfold searchKnowledge.
  set (pattern := u "%" ++ join (u "%") (extractKeywords query) ++ u "%").
  destruct (select_knowledge pattern pattern pattern st) as [[e | items] st1] eqn:E.
  - assert (Hst : exists g, st1 = set_store_faults g st).
    { revert E. unfold select_knowledge, mbind, M_bind, bind, store_begin.
      destruct (store_faults st) as [| [|] rest]; cbn; try discriminate.
      intros [= _ <-]. now eexists. }
    destruct Hst as (g & ->).
    exists [], (fun c => c ++ [u "Erro ao buscar conhecimento:"]), g.
    split; [| split; [cbn; lia | now destruct (store_faults st) as [| [|] ?]]].
    erewrite try_catch_inl by exact E. reflexivity.
  - assert (Hst : exists g, st1 = set_store_faults g st).
    { revert E. unfold select_knowledge, mbind, M_bind, bind, store_begin, gets.
      destruct (store_faults st) as [| [|] rest] eqn:F; cbn; try discriminate.
      - intros [= _ <-]. exists (fun x => x). now destruct st.
      - intros [= _ <-]. now eexists. }
    destruct Hst as (g & ->).
    exists items, (fun c => c), g.
    split; [| split].
    + erewrite try_catch_inr by exact E. reflexivity.
    + eapply select_knowledge_length. exact E.
    + destruct (store_faults st) as [| [|] rest] eqn:F; try exact I.
      rewrite (select_knowledge_fault _ _ _ _ _ F) in E. discriminate.
Qed.

(** C7.  [searchKnowledge] never throws: it always returns a sequence, of
    at most five snippets, and the empty one when the store operation
    fails. *)
Theorem searchKnowledge_degrades (query : jsstring) (mode : Mode) (st : State) :
  exists (items : list Item.t) (st' : State),
    searchKnowledge query mode st = (inr items, st')
    /\ length items <= 5
    /\ match store_faults st with
       | true :: _ => items = []
       | _ => True
       end.
Proof.
  destruct (searchKnowledge_run query mode st) as (items & f & g & E & Hlen & Hfault).
  exists items. eexists. split; [exact E | split; assumption].
Qed.

(** ** Context assembler *)

Lemma fold_left_add_item (knowledge : list Item.t) (context : jsstring) :
  fold_left add_item knowledge context
  = context ++ concat (map item_line knowledge).
Proof.
  revert context. induction knowledge as [| item rest IH]; intros context.
  - cbn. now rewrite app_nil_r.
  - cbn [fold_left map concat]. rewrite IH. unfold add_item.
    fold (item_line item). now rewrite <- app_assoc.
Qed.

Lemma fold_left_add_msg (turns : list Msg.t) (context : jsstring) :
  fold_left add_msg turns context = context ++ concat (map turn_line turns).
Proof.
  revert context. induction turns as [| msg rest IH]; intros context.
  - cbn. now rewrite app_nil_r.
  - cbn [fold_left map concat]. rewrite IH. unfold add_msg.
    fold (turn_line msg). now rewrite <- app_assoc.
Qed.

Lemma slice_from_last (turns : list Msg.t) :
  slice_from (-5) turns = last_turns 5 turns.
Proof.
  unfold slice_from, last_turns. cbn [Z.ltb Z.compare]. f_equal. lia.
Qed.

Lemma last_turns_length (n : nat) (turns : list Msg.t) :
  length (last_turns n turns) = Nat.min n (length turns).
Proof. unfold last_turns. rewrite length_drop. lia. Qed.

Lemma last_turns_suffix (n : nat) (turns : list Msg.t) :
  take (length turns - n) turns ++ last_turns n turns = turns.
Proof. apply take_drop. Qed.

Lemma last_turns_idem (n : nat) (turns : list Msg.t) :
  last_turns n (last_turns n turns) = last_turns n turns.
Proof.
  unfold last_turns at 1. rewrite last_turns_length.
  replace (Nat.min n (length turns) - n) with 0 by lia. reflexivity.
Qed.

Lemma last_turns_nil_iff (turns : list Msg.t) :
  last_turns 5 turns = [] <-> turns = [].
Proof.
  split; [| now intros ->].
  intros H. apply (f_equal length) in H. rewrite last_turns_length in H.
  destruct turns; [reflexivity | cbn in H; lia].
Qed.

Lemma history_section_last (turns : list Msg.t) :
  history_section (last_turns 5 turns) = history_section turns.
Proof.
  unfold history_section. rewrite last_turns_idem.
  destruct turns as [| t rest]; [reflexivity |].
  destruct (last_turns 5 (t :: rest)) eqn:E; [| reflexivity].
  apply (proj1 (last_turns_nil_iff _)) in E. discriminate E.
Qed.

Lemma buildContext_run (message : jsstring) (mode : Mode)
    (knowledge : list Item.t) (history : loc) (turns : list Msg.t)
    (st : State) :
  heap st !! history = Some turns ->
  buildContext message mode knowledge history st
  = (inr (context_text message mode knowledge turns),
     after_buildContext turns st).
Proof.
  intros Hh. unfold buildContext.
  assert (Hread : forall A (k : list Msg.t -> M A),
             (array_read history ≫= k) st = k turns st).
  { intros A k. apply bind_inr. unfold array_read. now rewrite Hh. }
  unfold array_length. unfold mbind at 1, M_bind at 1, bind at 1.
  rewrite Hread. cbn [mret M_ret ret].
  assert (Hk : (if (0 <? Z.of_nat (length knowledge))%Z
                then fold_left add_item knowledge
                       ((financialPrompts mode ++ [LF; LF])
                        ++ u "Conhecimento relevante:" ++ [LF]) ++ [LF]
                else financialPrompts mode ++ [LF; LF])
               = financialPrompts mode ++ [LF; LF] ++ knowledge_section knowledge).
  { destruct knowledge as [| item rest].
    - cbn [length Z.of_nat Z.ltb Z.compare knowledge_section].
      now rewrite app_nil_r.
    - replace (0 <? Z.of_nat (length (item :: rest)))%Z with true
        by (symmetry; apply Z.ltb_lt; cbn [length]; lia).
      rewrite fold_left_add_item. unfold knowledge_section.
      now rewrite <- !app_assoc. }
  rewrite Hk. clear Hk.
  destruct turns as [| t rest].
  - change (0 <? Z.of_nat (length (@nil Msg.t)))%Z with false.
    unfold mbind, M_bind, bind, mret, M_ret, ret.
    unfold context_text, after_buildContext, history_section.
    rewrite <- !app_assoc, app_nil_l. reflexivity.
  - replace (0 <? Z.of_nat (length (t :: rest)))%Z with true
      by (symmetry; apply Z.ltb_lt; cbn [length]; lia).
    unfold array_slice, array_forEach, array_alloc.
    unfold mbind, M_bind, bind, mret, M_ret, ret, array_read.
    rewrite Hh. cbn [heap set_heap]. rewrite lookup_insert_eq.
    rewrite slice_from_last, fold_left_add_msg.
    unfold context_text, after_buildContext, history_section.
    rewrite <- !app_assoc. reflexivity.
Qed.

Lemma u_app_nonempty (s : string) (rest : jsstring) :
  (exists c tl, u s = c :: tl) -> u s ++ rest <> [].
Proof. intros (c & tl & ->). discriminate. Qed.

Lemma knowledge_header_cons :
  exists c tl, u "Conhecimento relevante:" = c :: tl.
Proof. vm_compute. eauto. Qed.

Lemma history_header_cons :
  exists c tl, u "Contexto da conversa:" = c :: tl.
Proof. vm_compute. eauto. Qed.

(** C4.  With [history] an array of [turns], [buildContext] returns the
    prompt of [context_text]: the mode's instruction block, the knowledge
    section, the conversation section, then the user's message followed by
    the marker "Resposta:" (after an empty line), with which the prompt
    ends.  The knowledge section is there exactly when there is at least
    one snippet, the conversation section exactly when the history is not
    empty; that section lists the last five turns, or all of them when
    there are fewer, in their order in the history. *)
Theorem buildContext_shape (message : jsstring) (mode : Mode)
    (knowledge : list Item.t) (history : loc) (turns : list Msg.t)
    (st : State) :
  heap st !! history = Some turns ->
  (buildContext message mode knowledge history st).1
  = inr (context_text message mode knowledge turns)
  /\ (exists before : jsstring,
        context_text message mode knowledge turns
        = before ++ message ++ [LF; LF] ++ u "Resposta:")
  /\ (knowledge_section knowledge = [] <-> knowledge = [])
  /\ (history_section turns = [] <-> turns = [])
  /\ (exists earlier : list Msg.t, turns = earlier ++ last_turns 5 turns)
  /\ length (last_turns 5 turns) = Nat.min 5 (length turns).
Proof.
  intros Hh. split; [| split; [| split; [| split; [| split]]]].
  - now rewrite (buildContext_run _ _ _ _ _ _ Hh).
  - exists (financialPrompts mode ++ [LF; LF] ++ knowledge_section knowledge
            ++ history_section turns ++ u "Pergunta do usuário: ").
    unfold context_text. now rewrite <- !app_assoc.
  - split; [| now intros ->].
    destruct knowledge as [| item rest]; [reflexivity |].
    intros H. exfalso. revert H. unfold knowledge_section.
    exact (u_app_nonempty _ _ knowledge_header_cons).
  - split; [| now intros ->].
    destruct turns as [| t rest]; [reflexivity |].
    intros H. exfalso. revert H. unfold history_section.
    exact (u_app_nonempty _ _ history_header_cons).
  - exists (take (length turns - 5) turns). symmetry. apply last_turns_suffix.
  - apply last_turns_length.
Qed.

Lemma buildContext_shape_witness :
  heap chat_state !! 1%positive = Some seven_turns
  /\ (buildContext (u "e o dólar?") consulta one_snippet 1%positive chat_state).1
     = inr (context_text (u "e o dólar?") consulta one_snippet seven_turns)
  /\ length (last_turns 5 seven_turns) = 5.
Proof.
  assert (H : heap chat_state !! 1%positive = Some seven_turns) by reflexivity.
  destruct (buildContext_shape (u "e o dólar?") consulta one_snippet
              1%positive seven_turns chat_state H)
    as (Hrun & _ & _ & _ & _ & Hlen).
  split; [exact H | split; [exact Hrun | exact Hlen]].
Defined.

(** ** Provider dispatcher *)

(** The outcome depends on the coming reply alone, not on the prompt or
    on the rest of the state. *)
Lemma dispatch_outcome (provider context : jsstring) (st st0 : State) :
  http_replies st = http_replies st0 ->
  (dispatch provider context st).1 = provider_outcome provider st0.
Proof.
  intros H. unfold provider_outcome, dispatch, callOpenAI, callClaude, callDeepSeek.
  repeat match goal with
         | |- context [if ?b then _ else _] => destruct b
         end;
    try reflexivity;
    unfold mbind, M_bind, bind, axios_post, lift, mret, M_ret, ret;
    rewrite H; destruct (http_replies st0) as [| [| status data] rest];
    try reflexivity;
    destruct ((200 <=? status)%Z && (status <? 300)%Z); try reflexivity;
    match goal with
    | |- context [completion_reply data] => destruct (completion_reply data)
    | |- context [message_reply data] => destruct (message_reply data)
    end; reflexivity.
Qed.

Lemma selectProvider_is_provider (message : jsstring) (mode : Mode) :
  is_provider (selectProvider message mode).
Proof.
  unfold is_provider, selectProvider.
  repeat match goal with
         | |- context [if ?b then _ else _] => destruct b
         end; auto.
Qed.

(** A known provider always has a reply object or an error, never
    [undefined]. *)
Lemma dispatch_known (provider context : jsstring) (st : State) :
  is_provider provider ->
  match dispatch provider context st with
  | (inr None, _) => False
  | _ => True
  end.
Proof.
  intros [-> | [-> | ->]]; unfold dispatch.
  - change (jsstring_eqb openai openai) with true. cbv iota.
    unfold mbind, M_bind, bind, mret, M_ret, ret.
    now destruct (callOpenAI context st) as [[e | r] st'].
  - change (jsstring_eqb claude openai) with false.
    change (jsstring_eqb claude claude) with true. cbv iota.
    unfold mbind, M_bind, bind, mret, M_ret, ret.
    now destruct (callClaude context st) as [[e | r] st'].
  - change (jsstring_eqb deepseek openai) with false.
    change (jsstring_eqb deepseek claude) with false.
    change (jsstring_eqb deepseek deepseek) with true. cbv iota.
    unfold mbind, M_bind, bind, mret, M_ret, ret.
    now destruct (callDeepSeek context st) as [[e | r] st'].
Qed.

(** [getMockResponse] returns one of the two canned replies. *)
Lemma getMockResponse_run (st : State) :
  exists (reply : Reply.t) (g : list bool -> list bool),
    getMockResponse st = (inr (Some reply), set_random_draws g st)
    /\ In reply responses.
Proof.
  unfold getMockResponse, mbind, M_bind, bind, random_index_of_two, mret, M_ret, ret.
  destruct (random_draws st) as [| [|] rest] eqn:E.
  - eexists _, (fun d => d). split; [| left; reflexivity].
    f_equal. now destruct st.
  - eexists _, (fun _ => rest). split; [reflexivity | right; left; reflexivity].
  - eexists _, (fun _ => rest). split; [reflexivity | left; reflexivity].
Qed.

(** [callAIProvider] for a known provider never throws: it returns the
    provider's reply, or one of the two canned replies when the call
    failed. *)
Lemma callAIProvider_run (provider context : jsstring) (st : State) :
  is_provider provider ->
  exists (reply : Reply.t) (st' : State),
    callAIProvider provider context st = (inr (Some reply), st')
    /\ ((dispatch provider context st).1 = inr (Some reply)
        \/ ((exists e, (dispatch provider context st).1 = inl e)
            /\ In reply responses)).
Proof.
  intros Hp. unfold callAIProvider, try_catch.
  pose proof (dispatch_known provider context st Hp) as Hk.
  destruct (dispatch provider context st) as [[e | [r |]] st1] eqn:E;
    [| | contradiction].
  - unfold mbind, M_bind, bind, console_error, modify.
    destruct (getMockResponse_run
                (set_console
                   (fun c => c ++ [u "Erro no provedor " ++ provider ++ u ":"])
                   st1)) as (reply & g & Em & Hin).
    exists reply. eexists. split; [exact Em |].
    right. split; [now exists e | exact Hin].
  - exists r, st1. split; [reflexivity | now left].
Qed.

Lemma logUsage_total (userId : Z) (provider : jsstring) (tokens : value)
    (st : State) :
  exists st', logUsage userId provider tokens st = (inr tt, st').
Proof.
  unfold logUsage, try_catch.
  match goal with
  | |- context [match ?m st with _ => _ end] => destruct (m st) as [[e | []] st1]
  end; eexists; reflexivity.
Qed.

(** ** The whole request *)

Lemma generateResponse_eq (message : jsstring) (mode : Mode)
    (userId : option Z) (history : loc) :
  generateResponse message mode userId history
  = try_catch
      (knowledge ← searchKnowledge message mode;
       context ← buildContext message mode knowledge history;
       respond message mode userId context)
      (fun error =>
         console_error (u "Erro no serviço de IA:");;
         mret (getFallbackResponse mode)).
Proof. reflexivity. Qed.

Lemma model_of_provider (provider : jsstring) :
  is_provider provider -> model_of provider = mret (model_name provider).
Proof. now intros [-> | [-> | ->]]. Qed.

Lemma heap_blind_field {A} (r : option Reply.t) (f : Reply.t -> A) :
  heap_blind (field r f).
Proof. destruct r; cbn; auto with heap_blind. Qed.

Lemma heap_blind_model_of (provider : jsstring) : heap_blind (model_of provider).
Proof. unfold model_of. destruct (providers provider); auto with heap_blind. Qed.

Lemma heap_blind_respond (message : jsstring) (mode : Mode)
    (userId : option Z) (context : jsstring) :
  heap_blind (respond message mode userId context).
Proof.
  unfold respond. cbv zeta.
  apply heap_blind_bind; [apply heap_blind_callAIProvider |]. intros response.
  apply heap_blind_bind.
  { destruct (truthy_id userId); [| auto with heap_blind].
    apply heap_blind_bind; [apply heap_blind_field |].
    intros tokens. apply heap_blind_logUsage. }
  intros _. apply heap_blind_bind; [apply heap_blind_field |]. intros text.
  apply heap_blind_bind; [apply heap_blind_field |]. intros tokens.
  apply heap_blind_bind; [apply heap_blind_model_of |]. intros name.
  auto with heap_blind.
Qed.

(** After context assembly the request always ends with a result: the
    selected provider's id and model, and the content and token count of
    the provider's reply or, when the call failed, of a canned reply. *)
Lemma respond_run (message : jsstring) (mode : Mode) (userId : option Z)
    (context : jsstring) (st : State) :
  exists (reply : Reply.t) (st' : State),
    respond message mode userId context st
    = (inr (result_from (selectProvider message mode)
                        (model_name (selectProvider message mode)) reply), st')
    /\ ((dispatch (selectProvider message mode) context st).1 = inr (Some reply)
        \/ ((exists e, (dispatch (selectProvider message mode) context st).1 = inl e)
            /\ In reply responses)).
Proof.
  pose proof (selectProvider_is_provider message mode) as Hp.
  destruct (callAIProvider_run _ context st Hp) as (reply & st1 & E & Hcase).
  exists reply. unfold respond. cbv zeta.
  erewrite bind_inr by exact E.
  assert (Hlog : exists st2,
             match truthy_id userId with
             | Some id =>
                 tokens ← field (Some reply) Reply.tokensUsed;
                 logUsage id (selectProvider message mode)
                          (js_or tokens (VNum 100))
             | None => mret tt
             end st1 = (inr tt, st2)).
  { destruct (truthy_id userId) as [id |]; [| now eexists].
    cbn [field]. erewrite bind_inr by reflexivity. apply logUsage_total. }
  destruct Hlog as (st2 & Hlog). exists st2. split; [| exact Hcase].
  erewrite bind_inr by exact Hlog. cbn [field].
  erewrite bind_inr by reflexivity. erewrite bind_inr by reflexivity.
  rewrite (model_of_provider _ Hp). erewrite bind_inr by reflexivity.
  reflexivity.
Qed.

Lemma after_buildContext_keeps (turns : list Msg.t) (st : State) (l : loc)
    (a : list Msg.t) :
  heap st !! l = Some a -> heap (after_buildContext turns st) !! l = Some a.
Proof.
  intros H. unfold after_buildContext. destruct turns; [exact H |].
  cbn [heap set_heap]. rewrite lookup_insert_ne; [exact H |].
  intros Heq. subst l. pose proof (is_fresh (dom (heap st))) as Hf.
  apply Hf, elem_of_dom. now exists a.
Qed.

Lemma generateResponse_run (message : jsstring) (mode : Mode)
    (userId : option Z) (history : loc) (turns : list Msg.t) (st : State) :
  heap st !! history = Some turns ->
  exists (reply : Reply.t) (st' : State),
    generateResponse message mode userId history st
    = (inr (result_from (selectProvider message mode)
                        (model_name (selectProvider message mode)) reply), st')
    /\ (provider_outcome (selectProvider message mode) st = inr (Some reply)
        \/ ((exists e, provider_outcome (selectProvider message mode) st = inl e)
            /\ In reply responses))
    /\ (forall l a, heap st !! l = Some a -> heap st' !! l = Some a).
Proof.
  intros Hh. rewrite generateResponse_eq.
  destruct (searchKnowledge_run message mode st) as (items & f & g & Es & _ & _).
  set (st1 := set_console f (set_store_faults g st)) in *.
  assert (Hh1 : heap st1 !! history = Some turns) by exact Hh.
  pose proof (buildContext_run message mode items history turns st1 Hh1) as Eb.
  set (st2 := after_buildContext turns st1) in *.
  set (context := context_text message mode items turns) in *.
  destruct (respond_run message mode userId context st2) as (reply & st3 & Er & Hcase).
  exists reply, st3. split; [| split].
  - erewrite try_catch_inr; [reflexivity |].
    erewrite bind_inr by exact Es. erewrite bind_inr by exact Eb. exact Er.
  - assert (Hr : http_replies st2 = http_replies st).
    { subst st2 st1. unfold after_buildContext. now destruct turns. }
    now rewrite (dispatch_outcome _ context st2 st Hr) in Hcase.
  - intros l a Hl.
    pose proof (heap_blind_heap _ st2 (heap_blind_respond message mode userId context)) as Hheap.
    rewrite Er in Hheap. cbn [snd] in Hheap. rewrite Hheap.
    apply after_buildContext_keeps. exact Hl.
Qed.

(** Without a history array, reading its length throws and the outer
    handler answers with the mode's fallback. *)
Lemma generateResponse_null (message : jsstring) (mode : Mode)
    (userId : option Z) (history : loc) (st : State) :
  heap st !! history = None ->
  exists st',
    generateResponse message mode userId history st
    = (inr (getFallbackResponse mode), st')
    /\ heap st' = heap st.
Proof.
  intros Hh. rewrite generateResponse_eq.
  destruct (searchKnowledge_run message mode st) as (items & f & g & Es & _ & _).
  set (st1 := set_console f (set_store_faults g st)) in *.
  assert (Eb : buildContext message mode items history st1 = (inl TypeError, st1)).
  { unfold buildContext, array_length. apply bind_inl. apply bind_inl.
    unfold array_read. subst st1. cbn [heap set_console set_store_faults].
    now rewrite Hh. }
  eexists. split.
  - erewrite try_catch_inl.
    2:{ erewrite bind_inr by exact Es. apply bind_inl. exact Eb. }
    reflexivity.
  - reflexivity.
Qed.

(** ** Failure of the provider call *)

Lemma call_fails_outcome (provider : jsstring) (st : State) :
  is_provider provider ->
  call_fails provider st = true ->
  exists e, provider_outcome provider st = inl e.
Proof.
  unfold call_fails, provider_outcome, dispatch, callOpenAI, callClaude, callDeepSeek.
  intros [-> | [-> | ->]].
  - change (jsstring_eqb openai openai) with true.
    change (jsstring_eqb openai claude) with false. cbv iota.
    unfold mbind, M_bind, bind, axios_post, lift, mret, M_ret, ret.
    destruct (http_replies st) as [| [| status data] rest];
      [eexists; reflexivity | eexists; reflexivity |].
    destruct ((200 <=? status)%Z && (status <? 300)%Z);
      [| eexists; reflexivity].
    destruct (completion_reply data); [eexists; reflexivity | discriminate].
  - change (jsstring_eqb claude openai) with false.
    change (jsstring_eqb claude claude) with true. cbv iota.
    unfold mbind, M_bind, bind, axios_post, lift, mret, M_ret, ret.
    destruct (http_replies st) as [| [| status data] rest];
      [eexists; reflexivity | eexists; reflexivity |].
    destruct ((200 <=? status)%Z && (status <? 300)%Z);
      [| eexists; reflexivity].
    destruct (message_reply data); [eexists; reflexivity | discriminate].
  - change (jsstring_eqb deepseek openai) with false.
    change (jsstring_eqb deepseek claude) with false.
    change (jsstring_eqb deepseek deepseek) with true. cbv iota.
    unfold mbind, M_bind, bind, axios_post, lift, mret, M_ret, ret.
    destruct (http_replies st) as [| [| status data] rest];
      [eexists; reflexivity | eexists; reflexivity |].
    destruct ((200 <=? status)%Z && (status <? 300)%Z);
      [| eexists; reflexivity].
    destruct (completion_reply data); [eexists; reflexivity | discriminate].
Qed.

Lemma is_provider_not_fallback (id : jsstring) : is_provider id -> id <> fallback.
Proof. intros [-> | [-> | ->]]; discriminate. Qed.

(** C1 at the failing input.  The request "olá" in mode consulta, with
    an empty history and no user, while the provider does not answer,
    answers 500, or answers 200 with a body that cannot be read: the
    result is not the fallback one that the claim promises; it names
    openai and does not carry the fallback text of the mode. *)
Lemma provider_failure_is_not_fallback :
  answers_without_fallback NetworkFailure
  /\ answers_without_fallback (HttpResponse 500 VNull)
  /\ answers_without_fallback (HttpResponse 200 (VObj [(u "usage", VObj [])])).
Proof.
  repeat split; try (vm_compute; reflexivity); vm_compute; discriminate.
Qed.

(** C1, what the code does instead.  The [catch] of [callAIProvider]
    returns the mock response that its comment keeps for development,
    whatever the environment.  So when the provider call fails,
    [generateResponse] still returns a result and the error does not reach
    the caller, but the result names the selected provider (openai, claude
    or deepseek, never "fallback") and that provider's model, and its
    content is one of the two canned mock texts, whatever the mode, with a
    token count of 150 or 180; the fallback result of the mode, which
    [getFallbackResponse] holds, is not used. *)
Theorem provider_failure_gives_mock (message : jsstring) (mode : Mode)
    (userId : option Z) (history : loc) (turns : list Msg.t) (st : State) :
  heap st !! history = Some turns ->
  call_fails (selectProvider message mode) st = true ->
  exists (r : DispatchResult) (st' : State),
    generateResponse message mode userId history st = (inr r, st')
    /\ provider r = selectProvider message mode
    /\ is_provider (provider r)
    /\ provider r <> fallback
    /\ model r = model_name (provider r)
    /\ ((content r = VStr mock_content_0 /\ tokensUsed r = VNum 150)
        \/ (content r = VStr mock_content_1 /\ tokensUsed r = VNum 180))
    /\ exists c rest, content r = VStr (c :: rest).
Proof.
  intros Hh Hfail.
  pose proof (selectProvider_is_provider message mode) as Hp.
  destruct (call_fails_outcome _ st Hp Hfail) as (e & He).
  destruct (generateResponse_run message mode userId history turns st Hh)
    as (reply & st' & E & Hcase & _).
  exists (result_from (selectProvider message mode)
                      (model_name (selectProvider message mode)) reply), st'.
  split; [exact E |]. cbn [provider model content tokensUsed result_from].
  split; [reflexivity |]. split; [exact Hp |].
  split; [now apply is_provider_not_fallback |]. split; [reflexivity |].
  destruct Hcase as [Hok | (_ & Hin)]; [rewrite He in Hok; discriminate |].
  destruct Hin as [<- | [<- | []]]; cbn [Reply.content Reply.tokensUsed].
  - split; [left; split; reflexivity |]. vm_compute. eauto.
  - split; [right; split; reflexivity |]. vm_compute. eauto.
Qed.

Lemma provider_failure_gives_mock_witness :
  call_fails (selectProvider (u "olá") robot)
             (outage_state (HttpResponse 503 VNull)) = true
  /\ match (generateResponse (u "olá") robot None 1%positive
                             (outage_state (HttpResponse 503 VNull))).1 with
     | inr r => provider r = openai /\ model r = u "gpt-4-turbo-preview"
     | inl _ => False
     end.
Proof.
  split; [reflexivity |].
  destruct (provider_failure_gives_mock (u "olá") robot None 1%positive []
              (outage_state (HttpResponse 503 VNull)) eq_refl eq_refl)
    as (r & st' & E & Hprov & _ & _ & Hmodel & _).
  rewrite E. cbn [fst]. split; [exact Hprov |].
  rewrite Hmodel, Hprov. reflexivity.
Defined.

(** A body of the right shape that holds no text is not taken for a
    failure at all: its missing content is handed on as the answer. *)
Example hollow_body_is_passed_on :
  call_fails (selectProvider (u "olá") consulta)
             (outage_state (HttpResponse 200 hollow_body)) = false
  /\ (generateResponse (u "olá") consulta None 1%positive
                       (outage_state (HttpResponse 200 hollow_body))).1
     = inr {| content := VUndefined; provider := openai;
              tokensUsed := VNum 100; model := u "gpt-4-turbo-preview" |}.
Proof. split; vm_compute; reflexivity. Qed.

(** ** Two runs *)

(** C8.  Two runs of [generateResponse] with the same arguments, from two
    states in which the history reference holds the same array, both end
    with a result, and the two results carry the same provider id and the
    same model name.  The two states may differ in everything else, so
    the provider call may fail in one run and succeed in the other. *)
Theorem generateResponse_two_runs (message : jsstring) (mode : Mode)
    (userId : option Z) (history : loc) (st1 st2 : State) :
  heap st1 !! history = heap st2 !! history ->
  exists (r1 r2 : DispatchResult) (st1' st2' : State),
    generateResponse message mode userId history st1 = (inr r1, st1')
    /\ generateResponse message mode userId history st2 = (inr r2, st2')
    /\ provider r1 = provider r2
    /\ model r1 = model r2.
Proof.
  intros Hsame. destruct (heap st1 !! history) as [turns |] eqn:H1; symmetry in Hsame.
  - destruct (generateResponse_run message mode userId history turns st1 H1)
      as (reply1 & s1 & E1 & _).
    destruct (generateResponse_run message mode userId history turns st2 Hsame)
      as (reply2 & s2 & E2 & _).
    do 4 eexists. split; [exact E1 |]. split; [exact E2 |]. split; reflexivity.
  - destruct (generateResponse_null message mode userId history st1 H1)
      as (s1 & E1 & _).
    destruct (generateResponse_null message mode userId history st2 Hsame)
      as (s2 & E2 & _).
    do 4 eexists. split; [exact E1 |]. split; [exact E2 |]. split; reflexivity.
Qed.

Lemma generateResponse_two_runs_witness :
  heap down_state !! 1%positive = heap up_state !! 1%positive
  /\ match (generateResponse (u "qual a tendência?") consulta None 1%positive
                             down_state).1,
           (generateResponse (u "qual a tendência?") consulta None 1%positive
                             up_state).1 with
     | inr r1, inr r2 =>
         provider r1 = provider r2 /\ model r1 = model r2
         /\ content r1 <> content r2
     | _, _ => False
     end.
Proof.
  split; [reflexivity |].
  destruct (generateResponse_two_runs (u "qual a tendência?") consulta None
              1%positive down_state up_state eq_refl)
    as (r1 & r2 & s1 & s2 & E1 & E2 & Hp & Hm).
  rewrite E1, E2. cbn [fst]. split; [exact Hp |]. split; [exact Hm |].
  revert E1 E2. vm_compute. intros [= <- _] [= <- _]. discriminate.
Defined.

(** ** The history is only read *)

Lemma context_text_last (message : jsstring) (mode : Mode)
    (knowledge : list Item.t) (turns : list Msg.t) :
  context_text message mode knowledge (last_turns 5 turns)
  = context_text message mode knowledge turns.
Proof. unfold context_text. now rewrite history_section_last. Qed.

Lemma after_buildContext_trimmed (history : loc) (turns : list Msg.t)
    (st : State) :
  exists g,
    after_buildContext (last_turns 5 turns) (trim_history history turns st)
    = set_heap g (after_buildContext turns st).
Proof.
  exists (fun _ =>
            heap (after_buildContext (last_turns 5 turns)
                                     (trim_history history turns st))).
  unfold after_buildContext, trim_history.
  destruct turns as [| t rest]; [apply State_ext; reflexivity |].
  destruct (last_turns 5 (t :: rest)); apply State_ext; reflexivity.
Qed.

Lemma buildContext_trimmed (message : jsstring) (mode : Mode)
    (knowledge : list Item.t) (history : loc) (turns : list Msg.t)
    (st : State) :
  heap st !! history = Some turns ->
  exists g,
    buildContext message mode knowledge history (trim_history history turns st)
    = (inr (context_text message mode knowledge turns),
       set_heap g (after_buildContext turns st)).
Proof.
  intros Hh.
  assert (Ht : heap (trim_history history turns st) !! history
               = Some (last_turns 5 turns)).
  { unfold trim_history. cbn [heap set_heap]. apply lookup_insert_eq. }
  destruct (after_buildContext_trimmed history turns st) as (g & Hg).
  exists g. rewrite (buildContext_run _ _ _ _ _ _ Ht).
  now rewrite context_text_last, Hg.
Qed.

Lemma generateResponse_trimmed (message : jsstring) (mode : Mode)
    (userId : option Z) (history : loc) (turns : list Msg.t) (st : State) :
  heap st !! history = Some turns ->
  (generateResponse message mode userId history (trim_history history turns st)).1
  = (generateResponse message mode userId history st).1.
Proof.
  intros Hh. rewrite generateResponse_eq.
  destruct (searchKnowledge_run message mode st) as (items & f & g & Es & _ & _).
  set (st1 := set_console f (set_store_faults g st)) in *.
  assert (Es' : searchKnowledge message mode (trim_history history turns st)
                = (inr items, trim_history history turns st1)).
  { unfold trim_history. rewrite heap_blind_searchKnowledge, Es. reflexivity. }
  assert (Hh1 : heap st1 !! history = Some turns) by exact Hh.
  pose proof (buildContext_run message mode items history turns st1 Hh1) as Eb.
  destruct (buildContext_trimmed message mode items history turns st1 Hh1)
    as (g' & Eb').
  set (context := context_text message mode items turns) in *.
  set (st2 := after_buildContext turns st1) in *.
  unfold try_catch.
  erewrite (bind_inr _ _ _ _ _ Es'), (bind_inr _ _ _ _ _ Eb').
  erewrite (bind_inr _ _ _ _ _ Es), (bind_inr _ _ _ _ _ Eb).
  rewrite heap_blind_respond.
  destruct (respond message mode userId context st2) as [[e | r] st3];
    reflexivity.
Qed.

(** C9.  With [history] an array of [turns]: every array that exists
    before [buildContext] or [generateResponse] runs, the history among
    them, holds the same turns afterwards; and both return what they
    return when the history holds its last five turns only, so no earlier
    turn is read. *)
Theorem history_is_read_only (message : jsstring) (mode : Mode)
    (knowledge : list Item.t) (userId : option Z) (history : loc)
    (turns : list Msg.t) (st : State) :
  heap st !! history = Some turns ->
  (forall (l : loc) (a : list Msg.t),
      heap st !! l = Some a ->
      heap (buildContext message mode knowledge history st).2 !! l = Some a)
  /\ (forall (l : loc) (a : list Msg.t),
        heap st !! l = Some a ->
        heap (generateResponse message mode userId history st).2 !! l = Some a)
  /\ (buildContext message mode knowledge history
                   (trim_history history turns st)).1
     = (buildContext message mode knowledge history st).1
  /\ (generateResponse message mode userId history
                       (trim_history history turns st)).1
     = (generateResponse message mode userId history st).1.
Proof.
  intros Hh. split; [| split; [| split]].
  - intros l a Hl. rewrite (buildContext_run _ _ _ _ _ _ Hh). cbn [snd].
    now apply after_buildContext_keeps.
  - intros l a Hl.
    destruct (generateResponse_run message mode userId history turns st Hh)
      as (reply & st' & E & _ & Hkeep).
    rewrite E. cbn [snd]. now apply Hkeep.
  - destruct (buildContext_trimmed message mode knowledge history turns st Hh)
      as (g & E).
    now rewrite E, (buildContext_run _ _ _ _ _ _ Hh).
  - now apply generateResponse_trimmed.
Qed.

Lemma history_is_read_only_witness :
  heap up_state !! 1%positive = Some seven_turns
  /\ heap (generateResponse (u "e agora?") daytrade None 1%positive up_state).2
       !! 1%positive = Some seven_turns
  /\ (buildContext (u "e agora?") daytrade [] 1%positive
                   (trim_history 1%positive seven_turns up_state)).1
     = (buildContext (u "e agora?") daytrade [] 1%positive up_state).1.
Proof.
  assert (H : heap up_state !! 1%positive = Some seven_turns) by reflexivity.
  destruct (history_is_read_only (u "e agora?") daytrade [] None 1%positive
              seven_turns up_state H)
    as (_ & Hgen & Hctx & _).
  split; [exact H |]. split; [exact (Hgen _ _ H) | exact Hctx].
Defined.

(** ** Reported token count *)

Lemma js_or_truthy (v : value) : truthy (js_or v (VNum 100)) = true.
Proof. unfold js_or. destruct (truthy v) eqn:E; [exact E | reflexivity]. Qed.

Lemma js_or_falsy (v : value) :
  truthy v = false -> js_or v (VNum 100) = VNum 100.
Proof. unfold js_or. now intros ->. Qed.

Lemma js_or_natural (v : value) :
  natural_or_absent v -> positive_count (js_or v (VNum 100)).
Proof.
  intros [-> | [-> | (n & -> & Hn)]]; try (exists 100%Z; split; [reflexivity | lia]).
  unfold js_or. cbn [truthy]. destruct (n =? 0)%Z eqn:E; cbn [negb].
  - exists 100%Z. split; [reflexivity | lia].
  - exists n. split; [reflexivity |]. apply Z.eqb_neq in E. lia.
Qed.

(** Against C10 as stated: a count that the provider reports as a
    negative number is handed on as it is. *)
Lemma tokensUsed_negative :
  match (generateResponse (u "olá") consulta None 1%positive
                          negative_count_state).1 with
  | inr r => tokensUsed r = VNum (-1) /\ ~ positive_count (tokensUsed r)
  | inl _ => False
  end.
Proof.
  vm_compute. split; [reflexivity |].
  intros (n & [= <-] & Hn). discriminate Hn.
Qed.

(** C10, as the code has it.  Every run of [generateResponse] ends with a
    result whose [tokensUsed] is truthy, so never 0.  It is 50 in the
    fallback result; 150 or 180 when the provider call failed; and
    otherwise the count of the provider's reply, or 100 when that count is
    falsy (missing or 0).  It is a strictly positive integer whenever the
    reply's count is a non-negative integer or missing; any other count is
    handed on unchanged. *)
Theorem tokensUsed_never_zero (message : jsstring) (mode : Mode)
    (userId : option Z) (history : loc) (st : State) :
  exists (r : DispatchResult) (st' : State),
    generateResponse message mode userId history st = (inr r, st')
    /\ truthy (tokensUsed r) = true
    /\ tokensUsed r <> VNum 0
    /\ ((r = getFallbackResponse mode /\ tokensUsed r = VNum 50)
        \/ ((exists e, provider_outcome (selectProvider message mode) st = inl e)
            /\ (tokensUsed r = VNum 150 \/ tokensUsed r = VNum 180))
        \/ (exists reply : Reply.t,
              provider_outcome (selectProvider message mode) st
              = inr (Some reply)
              /\ tokensUsed r = js_or (Reply.tokensUsed reply) (VNum 100)
              /\ (truthy (Reply.tokensUsed reply) = false ->
                  tokensUsed r = VNum 100)
              /\ (natural_or_absent (Reply.tokensUsed reply) ->
                  positive_count (tokensUsed r)))).
Proof.
  assert (Hnz : forall v, truthy v = true -> v <> VNum 0).
  { intros v Hv ->. discriminate Hv. }
  destruct (heap st !! history) as [turns |] eqn:Hh.
  - destruct (generateResponse_run message mode userId history turns st Hh)
      as (reply & st' & E & Hcase & _).
    do 2 eexists. split; [exact E |]. cbn [tokensUsed result_from].
    split; [apply js_or_truthy |]. split; [apply Hnz, js_or_truthy |].
    right. destruct Hcase as [Hok | (Hfail & Hin)].
    + right. exists reply. split; [exact Hok |]. split; [reflexivity |].
      split; [apply js_or_falsy | apply js_or_natural].
    + left. split; [exact Hfail |].
      destruct Hin as [<- | [<- | []]]; [left | right]; reflexivity.
  - destruct (generateResponse_null message mode userId history st Hh)
      as (st' & E & _).
    do 2 eexists. split; [exact E |].
    split; [now destruct mode |]. split; [now destruct mode |].
    left. split; [reflexivity | now destruct mode].
Qed.

(** The fallback results report 50 for each mode. *)
Lemma getFallbackResponse_tokens (mode : Mode) :
  tokensUsed (getFallbackResponse mode) = VNum 50
  /\ provider (getFallbackResponse mode) = fallback
  /\ model (getFallbackResponse mode) = fallback.
Proof. now destruct mode. Qed.

(** ** A whole request, run *)

(** A free account with three credits sends one message that the provider
    answers: afterwards the account has two credits and the log one row;
    the answer carries the provider's text and its token count. *)
Example generateResponse_meters_free_user :
  match generateResponse (u "qual a tendência?") consulta (Some 7%Z) 1%positive
          (mkState {[ 1%positive := seven_turns ]}
                   {[ 7%Z := {| plan := u "free"; credits := 3 |} ]}
                   [] [] [] [] []
                   [HttpResponse 200 (completion_body (u "Alta.") (VNum 42))]
                   []) with
  | (inr r, st') =>
      r = {| content := VStr (u "Alta."); provider := deepseek;
             tokensUsed := VNum 42; model := u "deepseek-chat" |}
      /\ users st' !! 7%Z = Some {| plan := u "free"; credits := 2 |}
      /\ api_logs st' = [usage_row 7]
      /\ heap st' !! 1%positive = Some seven_turns
  | (inl _, _) => False
  end.
Proof. vm_compute. repeat split. Qed.

(** * Further properties *)

(** String literals stay folded under [cbn] and [simpl] from here on. *)
#[local] Arguments u : simpl never.

(** ** Fields that a computation leaves alone *)

Lemma preserves_ret {A B} (proj : State -> B) (a : A) :
  preserves proj (mret a : M A).
Proof. intros st. reflexivity. Qed.

Lemma preserves_throw {A B} (proj : State -> B) (e : exn) :
  preserves proj (throw e : M A).
Proof. intros st. reflexivity. Qed.

Lemma preserves_lift {A B} (proj : State -> B) (r : exn + A) :
  preserves proj (lift r).
Proof. intros st. reflexivity. Qed.

Lemma preserves_bind {A B C} (proj : State -> C) (m : M A) (k : A -> M B) :
  preserves proj m -> (forall a, preserves proj (k a)) ->
  preserves proj (m ≫= k).
Proof.
  intros Hm Hk st. unfold mbind, M_bind, bind. specialize (Hm st).
  destruct (m st) as [[e | a] st']; cbn in *; [exact Hm |].
  now rewrite Hk.
Qed.

Lemma preserves_try_catch {A C} (proj : State -> C) (m : M A)
    (h : exn -> M A) :
  preserves proj m -> (forall e, preserves proj (h e)) ->
  preserves proj (try_catch m h).
Proof.
  intros Hm Hh st. unfold try_catch. specialize (Hm st).
  destruct (m st) as [[e | a] st']; cbn in *; [| exact Hm].
  now rewrite Hh.
Qed.

Lemma preserves_store_begin {C} (proj : State -> C) :
  (forall f st, proj (set_store_faults f st) = proj st) ->
  preserves proj store_begin.
Proof.
  intros H st. unfold store_begin.
  destruct (store_faults st) as [| [|] rest]; cbn; auto.
Qed.

Lemma preserves_console_error {C} (proj : State -> C) (label : jsstring) :
  (forall f st, proj (set_console f st) = proj st) ->
  preserves proj (console_error label).
Proof. intros H st. apply H. Qed.

Lemma preserves_axios_post {C} (proj : State -> C) (req : Request) :
  (forall f st, proj (set_requests f st) = proj st) ->
  (forall f st, proj (set_http_replies f st) = proj st) ->
  preserves proj (axios_post req).
Proof.
  intros H1 H2 st. unfold axios_post.
  destruct (http_replies st) as [| [| status data] rest]; cbn;
    rewrite ?H2, ?H1; try reflexivity.
  destruct ((200 <=? status)%Z && (status <? 300)%Z); cbn;
    now rewrite H2, H1.
Qed.

Lemma preserves_random_index_of_two {C} (proj : State -> C) :
  (forall f st, proj (set_random_draws f st) = proj st) ->
  preserves proj random_index_of_two.
Proof.
  intros H st. unfold random_index_of_two.
  destruct (random_draws st) as [| high rest]; cbn; auto.
Qed.

Lemma preserves_modify {C} (proj : State -> C) (f : State -> State) :
  (forall st, proj (f st) = proj st) -> preserves proj (modify f).
Proof. intros H st. apply H. Qed.

Lemma preserves_gets {A C} (proj : State -> C) (f : State -> A) :
  preserves proj (gets f).
Proof. intros st. reflexivity. Qed.

Lemma preserves_array_read {C} (proj : State -> C) (l : loc) :
  preserves proj (array_read l).
Proof. intros st. unfold array_read. now destruct (heap st !! l). Qed.

Lemma preserves_array_alloc {C} (proj : State -> C) (a : list Msg.t) :
  (forall f st, proj (set_heap f st) = proj st) ->
  preserves proj (array_alloc a).
Proof. intros H st. apply H. Qed.

(** Composite computations, step by step. *)
Ltac preserves_tac :=
  repeat first
    [ match goal with
      | |- forall _, _ => intro
      | |- preserves _ (if ?b then _ else _) => destruct b
      | |- preserves _ (match ?o with Some _ => _ | None => _ end) => destruct o
      | |- preserves _ (_ ≫= _) => apply preserves_bind
      | |- preserves _ (try_catch _ _) => apply preserves_try_catch
      | |- preserves _ (mret _) => apply preserves_ret
      | |- preserves _ (throw _) => apply preserves_throw
      | |- preserves _ (lift _) => apply preserves_lift
      | |- preserves _ (gets _) => apply preserves_gets
      | |- preserves _ (array_read _) => apply preserves_array_read
      | |- preserves _ store_begin => apply preserves_store_begin
      | |- preserves _ (console_error _) => apply preserves_console_error
      | |- preserves _ (axios_post _) => apply preserves_axios_post
      | |- preserves _ random_index_of_two => apply preserves_random_index_of_two
      | |- preserves _ (modify _) => apply preserves_modify
      | |- preserves _ (array_alloc _) => apply preserves_array_alloc
      end
    | reflexivity ].

Lemma preserves_searchKnowledge {C} (proj : State -> C) (query : jsstring)
    (mode : Mode) :
  (forall f st, proj (set_store_faults f st) = proj st) ->
  (forall f st, proj (set_console f st) = proj st) ->
  preserves proj (searchKnowledge query mode).
Proof.
  intros H1 H2. unfold searchKnowledge, select_knowledge.
  preserves_tac; auto.
Qed.

Lemma preserves_buildContext {C} (proj : State -> C) (message : jsstring)
    (mode : Mode) (knowledge : list Item.t) (history : loc) :
  (forall f st, proj (set_heap f st) = proj st) ->
  preserves proj (buildContext message mode knowledge history).
Proof.
  intros H. unfold buildContext, array_length, array_slice, array_forEach.
  preserves_tac; auto.
Qed.

Lemma preserves_callAIProvider {C} (proj : State -> C)
    (provider context : jsstring) :
  (forall f st, proj (set_requests f st) = proj st) ->
  (forall f st, proj (set_http_replies f st) = proj st) ->
  (forall f st, proj (set_console f st) = proj st) ->
  (forall f st, proj (set_random_draws f st) = proj st) ->
  preserves proj (callAIProvider provider context).
Proof.
  intros H1 H2 H3 H4.
  unfold callAIProvider, dispatch, callOpenAI, callClaude, callDeepSeek,
    getMockResponse.
  preserves_tac; auto.
Qed.

Lemma preserves_logUsage {C} (proj : State -> C) (userId : Z)
    (provider : jsstring) (tokens : value) :
  (forall f st, proj (set_store_faults f st) = proj st) ->
  (forall f st, proj (set_users f st) = proj st) ->
  (forall f st, proj (set_api_logs f st) = proj st) ->
  (forall f st, proj (set_console f st) = proj st) ->
  preserves proj (logUsage userId provider tokens).
Proof.
  intros H1 H2 H3 H4.
  unfold logUsage, select_user, update_credits, insert_api_log.
  preserves_tac; auto.
Qed.

(** ** The steps of a request *)

Lemma searchKnowledge_faults (query : jsstring) (mode : Mode) (st : State) :
  store_faults (searchKnowledge query mode st).2 = tail (store_faults st).
Proof.
  unfold searchKnowledge, try_catch, select_knowledge, mbind, M_bind, bind,
    store_begin.
  destruct (store_faults st) as [| [|] rest] eqn:E; cbn; [now rewrite E | | ];
    reflexivity.
Qed.

Lemma no_fault_tail (faults : list bool) :
  no_fault faults = true -> no_fault (tail faults) = true.
Proof.
  destruct faults as [| b rest]; [easy |]. cbn.
  intros H. now apply andb_true_iff in H.
Qed.

(** A known provider is called once, with the prompt it was given. *)
Lemma callAIProvider_requests (provider context : jsstring)
    (profile : Profile.t) (st : State) :
  providers provider = Some profile ->
  requests (callAIProvider provider context st).2
  = requests st ++ [request_for profile context].
Proof.
  intros Hp.
  assert (Hsent : exists r st1,
             dispatch provider context st = (r, st1)
             /\ requests st1 = requests st ++ [request_for profile context]).
  { unfold providers in Hp. unfold dispatch.
    destruct (jsstring_eqb provider openai);
      [| destruct (jsstring_eqb provider claude);
         [| destruct (jsstring_eqb provider deepseek); [| discriminate]]];
      injection Hp as <-;
      unfold callOpenAI, callClaude, callDeepSeek, mbind, M_bind, bind,
        axios_post, lift, mret, M_ret, ret;
      destruct (http_replies st) as [| [| status data] rest];
      try (do 2 eexists; split; reflexivity);
      destruct ((200 <=? status)%Z && (status <? 300)%Z);
      try (do 2 eexists; split; reflexivity);
      match goal with
      | |- context [completion_reply data] => destruct (completion_reply data)
      | |- context [message_reply data] => destruct (message_reply data)
      end; do 2 eexists; split; reflexivity. }
  destruct Hsent as (r & st1 & E & Hreq).
  unfold callAIProvider, try_catch. rewrite E.
  destruct r as [e | reply]; [| exact Hreq].
  rewrite <- Hreq.
  apply (preserves_bind requests); [| intros _; unfold getMockResponse];
    preserves_tac.
Qed.

(** What follows context assembly: the provider's reply or a canned one
    becomes the result, and an identified user is metered once. *)
Lemma respond_trace (message : jsstring) (mode : Mode) (userId : option Z)
    (context : jsstring) (st : State) :
  exists (reply : Reply.t) (st1 : State),
    callAIProvider (selectProvider message mode) context st
    = (inr (Some reply), st1)
    /\ respond message mode userId context st
       = (inr (result_from (selectProvider message mode)
                           (model_name (selectProvider message mode)) reply),
          match truthy_id userId with
          | Some id =>
              (logUsage id (selectProvider message mode)
                        (js_or (Reply.tokensUsed reply) (VNum 100)) st1).2
          | None => st1
          end).
Proof.
  pose proof (selectProvider_is_provider message mode) as Hp.
  destruct (callAIProvider_run _ context st Hp) as (reply & st1 & E & _).
  exists reply, st1. split; [exact E |].
  unfold respond. cbv zeta. erewrite bind_inr by exact E.
  destruct (truthy_id userId) as [id |].
  - destruct (logUsage_total id (selectProvider message mode)
                (js_or (Reply.tokensUsed reply) (VNum 100)) st1)
      as (st2 & E2).
    rewrite E2. cbn [snd field].
    erewrite bind_inr.
    2:{ erewrite bind_inr by reflexivity. exact E2. }
    erewrite bind_inr by reflexivity. erewrite bind_inr by reflexivity.
    rewrite (model_of_provider _ Hp). erewrite bind_inr by reflexivity.
    reflexivity.
  - erewrite bind_inr by reflexivity. cbn [field].
    erewrite bind_inr by reflexivity. erewrite bind_inr by reflexivity.
    rewrite (model_of_provider _ Hp). erewrite bind_inr by reflexivity.
    reflexivity.
Qed.

(** A whole request with a history array, step by step. *)
Lemma generateResponse_trace (message : jsstring) (mode : Mode)
    (userId : option Z) (history : loc) (turns : list Msg.t) (st : State) :
  heap st !! history = Some turns ->
  exists (items : list Item.t) (reply : Reply.t) (st1 st2 : State),
    searchKnowledge message mode st = (inr items, st1)
    /\ callAIProvider (selectProvider message mode)
                      (context_text message mode items turns)
                      (after_buildContext turns st1)
       = (inr (Some reply), st2)
    /\ generateResponse message mode userId history st
       = (inr (result_from (selectProvider message mode)
                           (model_name (selectProvider message mode)) reply),
          match truthy_id userId with
          | Some id =>
              (logUsage id (selectProvider message mode)
                        (js_or (Reply.tokensUsed reply) (VNum 100)) st2).2
          | None => st2
          end).
Proof.
  intros Hh. rewrite generateResponse_eq.
  destruct (searchKnowledge_run message mode st) as (items & f & g & Es & _ & _).
  set (st1 := set_console f (set_store_faults g st)) in *.
  assert (Hh1 : heap st1 !! history = Some turns) by exact Hh.
  pose proof (buildContext_run message mode items history turns st1 Hh1) as Eb.
  destruct (respond_trace message mode userId
              (context_text message mode items turns)
              (after_buildContext turns st1)) as (reply & st2 & Ec & Er).
  exists items, reply, st1, st2. split; [exact Es |]. split; [exact Ec |].
  erewrite try_catch_inr; [reflexivity |].
  erewrite bind_inr by exact Es. erewrite bind_inr by exact Eb. exact Er.
Qed.

(** ** The fallback path *)

Lemma generateResponse_null_state (message : jsstring) (mode : Mode)
    (userId : option Z) (history : loc) (st : State) :
  heap st !! history = None ->
  exists (f : list jsstring -> list jsstring) (g : list bool -> list bool),
    generateResponse message mode userId history st
    = (inr (getFallbackResponse mode),
       set_console (fun c => f c ++ [u "Erro no serviço de IA:"])
                   (set_store_faults g st))
    /\ g (store_faults st) = tail (store_faults st).
Proof.
  intros Hh.
  destruct (searchKnowledge_run message mode st) as (items & f & g & Es & _ & _).
  pose proof (searchKnowledge_faults message mode st) as Hf.
  rewrite Es in Hf. cbn in Hf.
  set (st1 := set_console f (set_store_faults g st)) in *.
  assert (Eb : buildContext message mode items history st1 = (inl TypeError, st1)).
  { unfold buildContext, array_length. apply bind_inl. apply bind_inl.
    unfold array_read. subst st1. cbn [heap set_console set_store_faults].
    now rewrite Hh. }
  exists f, g. split; [| exact Hf].
  rewrite generateResponse_eq. erewrite try_catch_inl.
  2:{ erewrite bind_inr by exact Es. apply bind_inl. exact Eb. }
  reflexivity.
Qed.

(** X1.  When [conversationHistory] is [null] (the reference holds no
    array), [generateResponse] answers with the fallback result of the
    mode (provider and model "fallback", 50 tokens) and logs the error;
    it sends no request to any provider, consumes no provider reply and
    leaves accounts and usage log as they were. *)
Theorem generateResponse_without_history (message : jsstring) (mode : Mode)
    (userId : option Z) (history : loc) (st : State) :
  heap st !! history = None ->
  (generateResponse message mode userId history st).1
  = inr (getFallbackResponse mode)
  /\ provider (getFallbackResponse mode) = fallback
  /\ tokensUsed (getFallbackResponse mode) = VNum 50
  /\ requests (generateResponse message mode userId history st).2 = requests st
  /\ http_replies (generateResponse message mode userId history st).2
     = http_replies st
  /\ users (generateResponse message mode userId history st).2 = users st
  /\ api_logs (generateResponse message mode userId history st).2 = api_logs st
  /\ exists earlier,
       console (generateResponse message mode userId history st).2
       = earlier ++ [u "Erro no serviço de IA:"].
Proof.
  intros Hh.
  destruct (generateResponse_null_state message mode userId history st Hh)
    as (f & g & E & _).
  rewrite E. cbn [fst snd].
  repeat split; try (now destruct mode).
  exists (f (console st)). reflexivity.
Qed.

Lemma generateResponse_without_history_witness :
  heap no_history_state !! 1%positive = None
  /\ (generateResponse (u "olá") portfolio (Some 7%Z) 1%positive
                       no_history_state).1
     = inr (getFallbackResponse portfolio)
  /\ requests (generateResponse (u "olá") portfolio (Some 7%Z) 1%positive
                                no_history_state).2 = [].
Proof.
  assert (H : heap no_history_state !! 1%positive = None) by reflexivity.
  destruct (generateResponse_without_history (u "olá") portfolio (Some 7%Z)
              1%positive no_history_state H)
    as (Hr & _ & _ & Hreq & _).
  split; [exact H |]. split; [exact Hr | exact Hreq].
Defined.

(** ** One request per call *)

Lemma is_provider_profile (provider : jsstring) :
  is_provider provider ->
  exists profile, providers provider = Some profile.
Proof. intros [-> | [-> | ->]]; eexists; reflexivity. Qed.

(** X2.  With a history array, [generateResponse] sends exactly one
    request: to the endpoint of the selected provider, for that provider's
    model and token ceiling, and with the assembled context (instruction
    block, the snippets that [searchKnowledge] returned, the last turns,
    the message) as its prompt. *)
Theorem generateResponse_sends_one_request (message : jsstring) (mode : Mode)
    (userId : option Z) (history : loc) (turns : list Msg.t) (st : State) :
  heap st !! history = Some turns ->
  exists (items : list Item.t) (profile : Profile.t),
    (searchKnowledge message mode st).1 = inr items
    /\ providers (selectProvider message mode) = Some profile
    /\ requests (generateResponse message mode userId history st).2
       = requests st
         ++ [request_for profile (context_text message mode items turns)].
Proof.
  intros Hh.
  destruct (generateResponse_trace message mode userId history turns st Hh)
    as (items & reply & st1 & st2 & Es & Ec & E).
  destruct (is_provider_profile _ (selectProvider_is_provider message mode))
    as (profile & Hp).
  exists items, profile. split; [now rewrite Es |]. split; [exact Hp |].
  rewrite E. cbn [snd].
  assert (H2 : requests st2
               = requests st
                 ++ [request_for profile (context_text message mode items turns)]).
  { pose proof (callAIProvider_requests _ (context_text message mode items turns)
                  profile (after_buildContext turns st1) Hp) as Hc.
    rewrite Ec in Hc. cbn [snd] in Hc. rewrite Hc. f_equal.
    transitivity (requests st1).
    - unfold after_buildContext. now destruct turns.
    - pose proof (preserves_searchKnowledge requests message mode
                    (fun _ _ => eq_refl) (fun _ _ => eq_refl) st) as Hs.
      rewrite Es in Hs. exact Hs. }
  destruct (truthy_id userId) as [id |]; [| exact H2].
  rewrite <- H2.
  apply (preserves_logUsage requests); intros; reflexivity.
Qed.

Lemma generateResponse_sends_one_request_witness :
  heap member_state !! 1%positive = Some seven_turns
  /\ map req_url
         (requests (generateResponse (u "qual a tendência?") consulta
                                     (Some 7%Z) 1%positive member_state).2)
     = [u "https://api.deepseek.com/v1/chat/completions"].
Proof.
  assert (H : heap member_state !! 1%positive = Some seven_turns) by reflexivity.
  destruct (generateResponse_sends_one_request (u "qual a tendência?") consulta
              (Some 7%Z) 1%positive seven_turns member_state H)
    as (items & profile & _ & Hp & Hreq).
  split; [exact H |]. rewrite Hreq.
  assert (Hprofile : profile = deepseek_profile).
  { revert Hp. vm_compute. now intros [= <-]. }
  rewrite Hprofile. reflexivity.
Defined.

(** ** Who is metered *)

(** Up to the provider's answer, a request touches neither the accounts
    nor the usage log, and performs one store operation. *)
Lemma provider_call_frame (query : jsstring) (mode : Mode)
    (items : list Item.t) (turns : list Msg.t) (provider context : jsstring)
    (reply : option Reply.t) (st st1 st2 : State) :
  searchKnowledge query mode st = (inr items, st1) ->
  callAIProvider provider context (after_buildContext turns st1)
  = (inr reply, st2) ->
  users st2 = users st /\ api_logs st2 = api_logs st
  /\ store_faults st2 = tail (store_faults st).
Proof.
  intros Es Ec.
  pose proof (preserves_searchKnowledge users query mode
                (fun _ _ => eq_refl) (fun _ _ => eq_refl) st) as Hu.
  pose proof (preserves_searchKnowledge api_logs query mode
                (fun _ _ => eq_refl) (fun _ _ => eq_refl) st) as Hl.
  pose proof (searchKnowledge_faults query mode st) as Hf.
  rewrite Es in Hu, Hl, Hf. cbn [snd] in Hu, Hl, Hf.
  pose proof (preserves_callAIProvider users provider context
                (fun _ _ => eq_refl) (fun _ _ => eq_refl) (fun _ _ => eq_refl)
                (fun _ _ => eq_refl) (after_buildContext turns st1)) as Hu2.
  pose proof (preserves_callAIProvider api_logs provider context
                (fun _ _ => eq_refl) (fun _ _ => eq_refl) (fun _ _ => eq_refl)
                (fun _ _ => eq_refl) (after_buildContext turns st1)) as Hl2.
  pose proof (preserves_callAIProvider store_faults provider context
                (fun _ _ => eq_refl) (fun _ _ => eq_refl) (fun _ _ => eq_refl)
                (fun _ _ => eq_refl) (after_buildContext turns st1)) as Hf2.
  rewrite Ec in Hu2, Hl2, Hf2. cbn [snd] in Hu2, Hl2, Hf2.
  rewrite Hu2, Hl2, Hf2, <- Hu, <- Hl, <- Hf.
  unfold after_buildContext. now destruct turns.
Qed.

(** X3.  A request without a user ([userId] null or 0) never reads or
    writes an account and adds nothing to the usage log, whatever the
    store and the provider do; the one store operation it performs is the
    knowledge query. *)
Theorem generateResponse_anonymous (message : jsstring) (mode : Mode)
    (userId : option Z) (history : loc) (st : State) :
  truthy_id userId = None ->
  users (generateResponse message mode userId history st).2 = users st
  /\ api_logs (generateResponse message mode userId history st).2
     = api_logs st
  /\ store_faults (generateResponse message mode userId history st).2
     = tail (store_faults st).
Proof.
  intros Hid. destruct (heap st !! history) as [turns |] eqn:Hh.
  - destruct (generateResponse_trace message mode userId history turns st Hh)
      as (items & reply & st1 & st2 & Es & Ec & E).
    rewrite E, Hid. cbn [snd].
    exact (provider_call_frame _ _ _ _ _ _ _ _ _ _ Es Ec).
  - destruct (generateResponse_null_state message mode userId history st Hh)
      as (f & g & E & Hg).
    rewrite E. cbn [snd]. repeat split. exact Hg.
Qed.

Lemma generateResponse_anonymous_witness :
  truthy_id (Some 0%Z) = None
  /\ users (generateResponse (u "olá") consulta (Some 0%Z) 1%positive
                             member_state).2
     = users member_state
  /\ api_logs (generateResponse (u "olá") consulta (Some 0%Z) 1%positive
                                member_state).2 = [].
Proof.
  destruct (generateResponse_anonymous (u "olá") consulta (Some 0%Z)
              1%positive member_state eq_refl) as (Hu & Hl & _).
  split; [reflexivity |]. split; [exact Hu | exact Hl].
Defined.

(** X4.  A request of an identified user with a history array, while the
    store answers, is metered exactly once whatever the provider does: the
    accounts end as one [charge] leaves them (one credit less for a metered
    account, no change otherwise) and the usage log has one more row. *)
Theorem generateResponse_meters_once (message : jsstring) (mode : Mode)
    (id : Z) (history : loc) (turns : list Msg.t) (st : State) :
  id <> 0%Z ->
  heap st !! history = Some turns ->
  no_fault (store_faults st) = true ->
  users (generateResponse message mode (Some id) history st).2
  = charge id (users st)
  /\ api_logs (generateResponse message mode (Some id) history st).2
     = api_logs st ++ [usage_row id]
  /\ (forall usr : User,
        users st !! id = Some usr -> is_metered usr = true ->
        users (generateResponse message mode (Some id) history st).2 !! id
        = Some {| plan := plan usr; credits := credits usr - 1 |})
  /\ (forall other : Z,
        other <> id ->
        users (generateResponse message mode (Some id) history st).2 !! other
        = users st !! other).
Proof.
  intros Hid Hh Hok.
  destruct (generateResponse_trace message mode (Some id) history turns st Hh)
    as (items & reply & st1 & st2 & Es & Ec & E).
  destruct (provider_call_frame _ _ _ _ _ _ _ _ _ _ Es Ec) as (Hu & Hl & Hf).
  assert (Ht : truthy_id (Some id) = Some id).
  { cbn. destruct (id =? 0)%Z eqn:E0; [| reflexivity].
    apply Z.eqb_eq in E0. contradiction. }
  rewrite E, Ht. clear E.
  assert (Hok2 : no_fault (store_faults st2) = true)
    by (rewrite Hf; now apply no_fault_tail).
  destruct (logUsage_run id (selectProvider message mode)
              (js_or (Reply.tokensUsed reply) (VNum 100)) st2 Hok2)
    as (rest & El).
  rewrite El. cbn [snd users api_logs set_store_faults set_api_logs set_users].
  rewrite Hu, Hl. fold (charge id (users st)).
  split; [reflexivity |]. split; [reflexivity |]. split.
  - intros usr Husr Hm. unfold charge. rewrite Husr, Hm.
    now rewrite lookup_alter_eq, Husr.
  - intros other Hne. unfold charge.
    destruct (users st !! id) as [usr |]; [| reflexivity].
    destruct (is_metered usr); [| reflexivity].
    now rewrite lookup_alter_ne.
Qed.

Lemma generateResponse_meters_once_witness :
  heap member_state !! 1%positive = Some seven_turns
  /\ users (generateResponse (u "olá") consulta (Some 7%Z) 1%positive
                             member_state).2 !! 7%Z
     = Some {| plan := u "free"; credits := 2 |}
  /\ length (api_logs (generateResponse (u "olá") consulta (Some 7%Z)
                                        1%positive member_state).2) = 1.
Proof.
  assert (H : heap member_state !! 1%positive = Some seven_turns) by reflexivity.
  assert (Hid : 7%Z <> 0%Z) by discriminate.
  destruct (generateResponse_meters_once (u "olá") consulta 7 1%positive
              seven_turns member_state Hid H eq_refl)
    as (_ & Hl & Hm & _).
  split; [exact H |]. split.
  - exact (Hm {| plan := u "free"; credits := 3 |} eq_refl eq_refl).
  - rewrite Hl. reflexivity.
Defined.

(** ** Metering under store failures *)

(** The four ways a metering call can end, by the store operation that
    fails first, if any. *)
Lemma logUsage_cases (userId : Z) (provider : jsstring) (tokens : value)
    (st : State) :
  (users (logUsage userId provider tokens st).2 = users st
   /\ (api_logs (logUsage userId provider tokens st).2 = api_logs st
       \/ (api_logs (logUsage userId provider tokens st).2
           = api_logs st ++ [usage_row userId]
           /\ charge userId (users st) = users st)))
  \/ (users (logUsage userId provider tokens st).2 = charge userId (users st)
      /\ (api_logs (logUsage userId provider tokens st).2 = api_logs st
          \/ api_logs (logUsage userId provider tokens st).2
             = api_logs st ++ [usage_row userId])).
Proof.
  unfold logUsage.
  change {| user_id := userId; endpoint := u "ai_chat"; method := u "POST";
            status_code := 200 |} with (usage_row userId).
  generalize (usage_row userId) (u "Erro ao registrar uso:").
  intros row label.
  unfold try_catch, select_user, update_credits, insert_api_log,
    mbind, M_bind, bind, store_begin, gets, modify, console_error, mret, M_ret,
    ret, charge.
  destruct (store_faults st) as [| [|] [| [|] [| [|] rest]]] eqn:F;
    cbn; rewrite ?F; cbn;
    destruct (users st !! userId) as [usr |] eqn:Hu; cbn;
    try destruct (is_metered usr) eqn:Hm;
    repeat (progress (cbn; rewrite ?F));
    auto.
Qed.

Lemma charge_lookup (userId id : Z) (us : gmap Z User) (usr' : User) :
  charge userId us !! id = Some usr' ->
  exists usr : User,
    us !! id = Some usr
    /\ plan usr' = plan usr
    /\ (credits usr - 1 <= credits usr' <= credits usr)%Z
    /\ (id <> userId -> usr' = usr).
Proof.
  unfold charge. intros H.
  destruct (us !! userId) as [owner |] eqn:Ho;
    [destruct (is_metered owner) eqn:Hm |].
  - destruct (decide (id = userId)) as [-> | Hne].
    + rewrite lookup_alter_eq, Ho in H. injection H as <-.
      exists owner. cbn.
      repeat split; try lia; try reflexivity; try assumption;
        try contradiction.
    + rewrite lookup_alter_ne in H by congruence.
      exists usr'. repeat split; try lia; assumption.
  - exists usr'. repeat split; try lia; assumption.
  - exists usr'. repeat split; try lia; assumption.
Qed.

(** X5.  [logUsage] is best effort, whatever the store does: it returns
    normally; it creates and deletes no account and changes no plan; only
    the account of [userId] can change, by losing one credit; the log
    gains the usage row or nothing. *)
Theorem logUsage_best_effort (userId : Z) (provider : jsstring)
    (tokens : value) (st : State) :
  (logUsage userId provider tokens st).1 = inr tt
  /\ (forall id : Z,
        users (logUsage userId provider tokens st).2 !! id = None
        <-> users st !! id = None)
  /\ (forall (id : Z) (usr' : User),
        users (logUsage userId provider tokens st).2 !! id = Some usr' ->
        exists usr : User,
          users st !! id = Some usr
          /\ plan usr' = plan usr
          /\ (credits usr - 1 <= credits usr' <= credits usr)%Z
          /\ (id <> userId -> usr' = usr))
  /\ (api_logs (logUsage userId provider tokens st).2 = api_logs st
      \/ api_logs (logUsage userId provider tokens st).2
         = api_logs st ++ [usage_row userId]).
Proof.
  split; [| split; [| split]].
  - destruct (logUsage_total userId provider tokens st) as (st' & E).
    now rewrite E.
  - intros id.
    destruct (logUsage_cases userId provider tokens st) as [[-> _] | [-> _]];
      [reflexivity |].
    unfold charge. destruct (users st !! userId) as [owner |] eqn:Ho;
      [| reflexivity].
    destruct (is_metered owner); [| reflexivity].
    rewrite lookup_alter. destruct (decide (userId = id)) as [<- |];
      [| reflexivity].
    rewrite Ho. cbn. split; discriminate.
  - intros id usr' H.
    destruct (logUsage_cases userId provider tokens st) as [[Hu _] | [Hu _]];
      rewrite Hu in H.
    + exists usr'. repeat split; try lia; assumption.
    + now apply charge_lookup in H.
  - destruct (logUsage_cases userId provider tokens st)
      as [[_ [H | [H _]]] | [_ [H | H]]]; auto.
Qed.

(** X6.  Metering is not atomic: when the store answers the read and the
    update but fails at the insert, a metered account has lost its credit
    and the usage log has no row for it; the failure is logged on the
    console and not raised. *)
Theorem logUsage_charge_without_row (userId : Z) (provider : jsstring)
    (tokens : value) (usr : User) (rest : list bool) (st : State) :
  users st !! userId = Some usr ->
  is_metered usr = true ->
  store_faults st = false :: false :: true :: rest ->
  (logUsage userId provider tokens st).1 = inr tt
  /\ users (logUsage userId provider tokens st).2 !! userId
     = Some {| plan := plan usr; credits := credits usr - 1 |}
  /\ api_logs (logUsage userId provider tokens st).2 = api_logs st
  /\ console (logUsage userId provider tokens st).2
     = console st ++ [u "Erro ao registrar uso:"].
Proof.
  intros Hu Hm F.
  unfold logUsage, try_catch, select_user, update_credits, insert_api_log,
    mbind, M_bind, bind, store_begin, gets, modify, console_error, mret, M_ret,
    ret.
  rewrite F. cbn. rewrite Hu, Hm. cbn.
  repeat split. now rewrite lookup_alter_eq, Hu.
Qed.

Lemma logUsage_charge_without_row_witness :
  users failing_log_state !! 7%Z = Some {| plan := u "basic"; credits := 10 |}
  /\ users (logUsage 7 claude (VNum 10) failing_log_state).2 !! 7%Z
     = Some {| plan := u "basic"; credits := 9 |}
  /\ api_logs (logUsage 7 claude (VNum 10) failing_log_state).2 = [].
Proof.
  destruct (logUsage_charge_without_row 7 claude (VNum 10)
              {| plan := u "basic"; credits := 10 |} [] failing_log_state
              eq_refl eq_refl eq_refl)
    as (_ & Hu & Hl & _).
  split; [reflexivity |]. split; [exact Hu | exact Hl].
Defined.

(** ** What the result depends on *)







(** ** Words of a text *)

Lemma split_ws_word_false (word w rest : jsstring) :
  no_space w ->
  split_ws_from false word (w ++ rest) = split_ws_from false (word ++ w) rest.
Proof.
  revert word. induction w as [| c w IH]; intros word Hw.
  - now rewrite app_nil_r.
  - inversion Hw as [| ? ? Hc Hw']; subst. cbn [app split_ws_from].
    rewrite Hc, IH by assumption. now rewrite <- app_assoc.
Qed.

Lemma split_ws_word (inGap : bool) (w rest : jsstring) :
  is_word w ->
  split_ws_from inGap [] (w ++ rest) = split_ws_from false w rest.
Proof.
  intros [Hne Hw]. destruct w as [| c w]; [contradiction |].
  inversion Hw as [| ? ? Hc Hw']; subst. cbn [app split_ws_from].
  rewrite Hc. now rewrite split_ws_word_false.
Qed.

Lemma split_ws_gap_true (word sep rest : jsstring) :
  Forall (fun c => isWhiteSpace c = true) sep ->
  split_ws_from true word (sep ++ rest) = split_ws_from true word rest.
Proof.
  induction sep as [| c sep IH]; intros Hs; [reflexivity |].
  inversion Hs as [| ? ? Hc Hs']; subst. cbn [app split_ws_from].
  rewrite Hc. now apply IH.
Qed.

Lemma split_ws_gap (word sep rest : jsstring) :
  is_gap sep ->
  split_ws_from false word (sep ++ rest) = word :: split_ws_from true [] rest.
Proof.
  intros [Hne Hs]. destruct sep as [| c sep]; [contradiction |].
  inversion Hs as [| ? ? Hc Hs']; subst. cbn [app split_ws_from].
  rewrite Hc. now rewrite split_ws_gap_true.
Qed.

Lemma isWhiteSpace_lower_unit (c : N) :
  isWhiteSpace (lower_unit c) = isWhiteSpace c.
Proof.
  unfold lower_unit.
  destruct ((65 <=? c)%N && (c <=? 90)%N) eqn:E1.
  - apply andb_true_iff in E1 as [Ha Hb].
    apply N.leb_le in Ha, Hb. unfold isWhiteSpace.
    repeat match goal with
           | |- context [(?a <=? ?b)%N] =>
               destruct (N.leb_spec a b); try lia
           | |- context [(?a =? ?b)%N] =>
               destruct (N.eqb_spec a b); try lia
           end; reflexivity.
  - destruct ((192 <=? c)%N && (c <=? 222)%N && negb (c =? 215)%N) eqn:E2;
      [| reflexivity].
    apply andb_true_iff in E2 as [E2 _].
    apply andb_true_iff in E2 as [Ha Hb].
    apply N.leb_le in Ha, Hb. unfold isWhiteSpace.
    repeat match goal with
           | |- context [(?a <=? ?b)%N] =>
               destruct (N.leb_spec a b); try lia
           | |- context [(?a =? ?b)%N] =>
               destruct (N.eqb_spec a b); try lia
           end; reflexivity.
Qed.

(** Lower-casing and splitting, in either order. *)
Lemma split_ws_toLowerCase (inGap : bool) (word s : jsstring) :
  split_ws_from inGap (toLowerCase word) (toLowerCase s)
  = map toLowerCase (split_ws_from inGap word s).
Proof.
  revert inGap word. induction s as [| c s IH]; intros inGap word;
    [reflexivity |].
  cbn [toLowerCase map split_ws_from]. fold (toLowerCase s).
  rewrite isWhiteSpace_lower_unit.
  destruct (isWhiteSpace c); [destruct inGap |].
  - apply IH.
  - cbn [map]. f_equal. apply (IH true []).
  - rewrite <- IH. f_equal. unfold toLowerCase. now rewrite map_app.
Qed.

(** The pieces of a text of words: its words, and an empty piece when
    white space ends it. *)
Lemma split_ws_spaced (inGap : bool) (first : jsstring)
    (more : list (jsstring * jsstring)) (trail : jsstring) :
  is_word first ->
  Forall (fun p => is_gap p.1 /\ is_word p.2) more ->
  white trail ->
  split_ws_from inGap [] (spaced first more ++ trail)
  = first :: map snd more ++ edge trail.
Proof.
  intros Hf Hm Ht. revert inGap first Hf.
  induction Hm as [| [sep w] more [Hsep Hw] Hm IH]; intros inGap first Hf.
  - cbn [spaced map app]. rewrite split_ws_word by assumption.
    destruct trail as [| c trail]; [reflexivity |].
    rewrite <- (app_nil_r (c :: trail)).
    rewrite split_ws_gap; [reflexivity |]. split; [discriminate | exact Ht].
  - cbn [spaced map snd]. cbn [fst snd] in Hsep, Hw. rewrite <- !app_assoc.
    rewrite split_ws_word by assumption. rewrite split_ws_gap by assumption.
    now rewrite IH.
Qed.

(** White space in front of the words leaves an empty piece in front. *)
Lemma split_ws_lead (lead rest : jsstring) :
  white lead ->
  split_ws_from false [] (lead ++ rest)
  = edge lead ++ split_ws_from (match lead with [] => false | _ => true end)
                               [] rest.
Proof.
  intros Hl. destruct lead as [| c lead]; [reflexivity |].
  rewrite split_ws_gap; [reflexivity |]. split; [discriminate | exact Hl].
Qed.

(** X9.  For a text in Latin-1 made of words with a run of white space
    between each two, and possibly white space before the first and after
    the last, the keywords are the lower-cased words that pass the filter
    (a vocabulary term includes the word or the word includes a term, or
    the word has more than 4 code units), in the order of the text, cut
    after the tenth; white space at either end of the text counts as an
    empty word there. *)
Theorem extractKeywords_of_words (lead first : jsstring)
    (more : list (jsstring * jsstring)) (trail : jsstring) :
  white lead ->
  is_word first ->
  Forall (fun p => is_gap p.1 /\ is_word p.2) more ->
  white trail ->
  latin1 (lead ++ spaced first more ++ trail) ->
  extractKeywords (lead ++ spaced first more ++ trail)
  = firstn 10
      (List.filter isKeyword
         (map toLowerCase
              (edge lead ++ first :: map snd more ++ edge trail))).
Proof.
  intros Hl Hf Hm Ht _. unfold extractKeywords, split_ws.
  change (@nil N) with (toLowerCase []) at 1.
  rewrite split_ws_toLowerCase. do 3 f_equal.
  rewrite split_ws_lead by exact Hl. f_equal.
  now apply split_ws_spaced.
Qed.

Lemma extractKeywords_of_words_witness :
  extractKeywords
    (u " " ++ spaced (u "Comprar") [(u "  ", u "PETR4"); (u " ", u "já")]
       ++ u " ")
  = [ []; u "comprar"; u "petr4"; [] ].
Proof.
  rewrite (extractKeywords_of_words (u " ") (u "Comprar")
             [(u "  ", u "PETR4"); (u " ", u "já")] (u " ")).
  - vm_compute. reflexivity.
  - repeat constructor.
  - split; [discriminate |]. repeat constructor.
  - repeat constructor; try discriminate.
  - repeat constructor.
  - reflexivity.
Defined.

Lemma split_ws_no_space (s : jsstring) (inGap : bool) (word : jsstring) :
  no_space word -> Forall no_space (split_ws_from inGap word s).
Proof.
  revert inGap word. induction s as [| c s IH]; intros inGap word Hw.
  - now repeat constructor.
  - cbn [split_ws_from]. destruct (isWhiteSpace c) eqn:Hc.
    + destruct inGap; [now apply IH |].
      constructor; [exact Hw |]. apply IH. constructor.
    + apply IH. apply Forall_app. now repeat constructor.
Qed.

(** Every piece that [split] returns stands in the text. *)
Lemma split_ws_pieces (s pre word : jsstring) (inGap : bool) :
  (inGap = true -> word = []) ->
  Forall (fun w => exists p q, pre ++ word ++ s = p ++ w ++ q)
         (split_ws_from inGap word s).
Proof.
  revert pre word inGap. induction s as [| c s IH]; intros pre word inGap Hg.
  - repeat constructor. now exists pre, [].
  - cbn [split_ws_from]. destruct (isWhiteSpace c).
    + destruct inGap.
      * rewrite (Hg eq_refl). cbn [app].
        specialize (IH (pre ++ [c]) [] true (fun _ => eq_refl)).
        cbn [app] in IH. now rewrite <- app_assoc in IH.
      * constructor; [now exists pre, (c :: s) |].
        specialize (IH (pre ++ word ++ [c]) [] true (fun _ => eq_refl)).
        cbn [app] in IH. now rewrite <- !app_assoc in IH.
    + specialize (IH pre (word ++ [c]) false ltac:(discriminate)).
      now rewrite <- app_assoc in IH.
Qed.

Lemma lower_unit_idempotent (c : N) : lower_unit (lower_unit c) = lower_unit c.
Proof.
  unfold lower_unit.
  repeat match goal with
         | |- context [(?a <=? ?b)%N] =>
             destruct (N.leb_spec a b); cbn [andb negb] in *; try lia
         | |- context [(?a =? ?b)%N] =>
             destruct (N.eqb_spec a b); cbn [andb negb] in *; try lia
         end; reflexivity.
Qed.

Lemma lower_unit_latin1 (c : N) :
  (c <? 256)%N = true -> (lower_unit c <? 256)%N = true.
Proof.
  intros Hc. apply N.ltb_lt in Hc. apply N.ltb_lt. unfold lower_unit.
  destruct ((65 <=? c)%N && (c <=? 90)%N) eqn:E1.
  - apply andb_true_iff in E1 as [_ Hb]. apply N.leb_le in Hb. lia.
  - destruct ((192 <=? c)%N && (c <=? 222)%N && negb (c =? 215)%N) eqn:E2;
      [| exact Hc].
    apply andb_true_iff in E2 as [E2 _].
    apply andb_true_iff in E2 as [_ Hb]. apply N.leb_le in Hb. lia.
Qed.

Lemma latin1_toLowerCase (s : jsstring) : latin1 s -> latin1 (toLowerCase s).
Proof.
  unfold latin1, toLowerCase. induction s as [| c s IH]; [reflexivity |].
  cbn [forallb map]. intros H. apply andb_true_iff in H as [Hc Hs].
  now rewrite lower_unit_latin1, IH.
Qed.

(** X10.  For a text in Latin-1, every keyword that [extractKeywords]
    returns is a piece of the lower-cased text: it stands in it, has no
    white space, is in Latin-1 and in lower case (lower-casing leaves it as
    it is), and passes the filter. *)
Theorem extractKeywords_pieces (text w : jsstring) :
  latin1 text ->
  In w (extractKeywords text) ->
  (exists p q : jsstring, toLowerCase text = p ++ w ++ q)
  /\ no_space w
  /\ latin1 w
  /\ toLowerCase w = w
  /\ isKeyword w = true.
Proof.
  intros Hlat Hin. unfold extractKeywords in Hin.
  apply In_firstn, List.filter_In in Hin as [Hin Hk].
  unfold split_ws in Hin.
  pose proof (split_ws_pieces (toLowerCase text) [] [] false ltac:(discriminate))
    as Hp.
  pose proof (split_ws_no_space (toLowerCase text) false [] ltac:(constructor))
    as Hs.
  rewrite Forall_forall in Hp, Hs. apply list_elem_of_In in Hin.
  destruct (Hp w Hin) as (p & q & E). cbn [app] in E.
  split; [now exists p, q |]. split; [exact (Hs w Hin) |].
  split; [| split; [| exact Hk]].
  - apply latin1_toLowerCase in Hlat. unfold latin1 in *.
    rewrite E, !forallb_app in Hlat.
    apply andb_true_iff in Hlat as [_ Hlat].
    now apply andb_true_iff in Hlat as [Hlat _].
  - assert (Hl : Forall (fun c => lower_unit c = c) (toLowerCase text)).
    { unfold toLowerCase. apply Forall_map, Forall_forall.
      intros c _. apply lower_unit_idempotent. }
    rewrite E in Hl. apply Forall_app in Hl as [_ Hl].
    apply Forall_app in Hl as [Hl _].
    unfold toLowerCase. clear -Hl.
    induction Hl as [| c w' Hc Hw' IH]; [reflexivity |].
    cbn [map]. now rewrite Hc, IH.
Qed.

Lemma extractKeywords_pieces_witness :
  latin1 (u "Qual a tendência do WINFUT hoje")
  /\ In (u "winfut") (extractKeywords (u "Qual a tendência do WINFUT hoje"))
  /\ no_space (u "winfut")
  /\ toLowerCase (u "winfut") = u "winfut".
Proof.
  assert (Hlat : latin1 (u "Qual a tendência do WINFUT hoje")) by reflexivity.
  assert (H : In (u "winfut")
                 (extractKeywords (u "Qual a tendência do WINFUT hoje")))
    by (vm_compute; tauto).
  destruct (extractKeywords_pieces _ _ Hlat H) as (_ & Hs & _ & Hl & _).
  split; [exact Hlat |]. split; [exact H |]. split; [exact Hs | exact Hl].
Defined.

(** ** Keywords anywhere in a message *)

Lemma startsWith_app (t rest : jsstring) : startsWith (t ++ rest) t = true.
Proof.
  induction t as [| c t IH]; [now destruct rest |].
  cbn. unfold unit_eqb. now rewrite N.eqb_refl.
Qed.

Lemma includes_app_r (pre s t : jsstring) :
  includes s t = true -> includes (pre ++ s) t = true.
Proof.
  intros H. induction pre as [| c pre IH]; [exact H |].
  cbn [app includes]. rewrite IH. apply orb_true_r.
Qed.

Lemma includes_middle (pre t post : jsstring) :
  includes (pre ++ t ++ post) t = true.
Proof.
  apply includes_app_r. destruct (t ++ post) eqn:E; cbn [includes];
    rewrite <- E, startsWith_app; reflexivity.
Qed.

Lemma toLowerCase_app (a b : jsstring) :
  toLowerCase (a ++ b) = toLowerCase a ++ toLowerCase b.
Proof. apply map_app. Qed.

(** X11.  A message that mentions "ntfl" or "código" anywhere, in any
    mix of upper and lower case, is routed to openai in every mode,
    whatever else it contains. *)
Theorem selectProvider_code_word (before word after : jsstring) (mode : Mode) :
  toLowerCase word = u "ntfl" \/ toLowerCase word = u "código" ->
  selectProvider (before ++ word ++ after) mode = openai.
Proof.
  intros H. unfold selectProvider.
  rewrite !toLowerCase_app.
  destruct H as [-> | ->]; rewrite includes_middle.
  - now rewrite orb_true_r.
  - now rewrite orb_true_r.
Qed.

Lemma selectProvider_code_word_witness :
  selectProvider (u "Qual a tendência do robô em " ++ u "NtFl" ++ u "?")
                 daytrade
  = openai.
Proof.
  apply selectProvider_code_word. left. vm_compute. reflexivity.
Defined.

(** ** The knowledge query *)

From Stdlib Require Import Sorted.

Lemma searchKnowledge_rows (query : jsstring) (mode : Mode) (st : State) :
  head (store_faults st) <> Some true ->
  (searchKnowledge query mode st).1
  = inr (map row_item
             (firstn 5 (order_by_relevance (matching_rows query st)))).
Proof.
  intros Hok.
  unfold searchKnowledge, try_catch, select_knowledge, mbind, M_bind, bind,
    store_begin, gets.
  destruct (store_faults st) as [| [|] rest]; cbn; try reflexivity.
  now contradiction Hok.
Qed.

Lemma score_le_total (a b : Z * positive) :
  score_le a b = true \/ score_le b a = true.
Proof. unfold score_le. rewrite !Z.leb_le. lia. Qed.

Lemma score_le_trans (a b c : Z * positive) :
  score_le a b = true -> score_le b c = true -> score_le a c = true.
Proof.
  unfold score_le. rewrite !Z.leb_le.
  destruct a as [a1 a2], b as [b1 b2], c as [c1 c2]. cbn [fst snd].
  intros H1 H2.
  apply Z.mul_le_mono_pos_r with (p := Z.pos b2); [lia |].
  apply Z.mul_le_mono_nonneg_r with (p := Z.pos c2) in H1; [| lia].
  apply Z.mul_le_mono_nonneg_r with (p := Z.pos a2) in H2; [| lia].
  lia.
Qed.

Lemma insert_by_relevance_perm (r : KnowledgeRow) (l : list KnowledgeRow) :
  insert_by_relevance r l ≡ₚ r :: l.
Proof.
  induction l as [| x l IH]; [reflexivity |].
  cbn [insert_by_relevance].
  destruct (score_le (relevance_score x) (relevance_score r)); [reflexivity |].
  rewrite IH. apply Permutation_swap.
Qed.

Lemma insert_by_relevance_sorted (r : KnowledgeRow) (l : list KnowledgeRow) :
  StronglySorted at_least_as_relevant l ->
  StronglySorted at_least_as_relevant (insert_by_relevance r l).
Proof.
  induction l as [| x l IH]; intros Hs.
  - repeat constructor.
  - apply StronglySorted_inv in Hs as [Hs Hx]. cbn [insert_by_relevance].
    destruct (score_le (relevance_score x) (relevance_score r)) eqn:E.
    + constructor; [constructor; assumption |].
      constructor; [exact E |].
      eapply Forall_impl; [exact Hx |]. intros y Hy. unfold at_least_as_relevant in *.
      eapply score_le_trans; eassumption.
    + constructor; [now apply IH |].
      rewrite insert_by_relevance_perm. constructor; [| exact Hx].
      unfold at_least_as_relevant.
      destruct (score_le_total (relevance_score x) (relevance_score r));
        congruence.
Qed.

Lemma order_by_relevance_perm (l : list KnowledgeRow) :
  order_by_relevance l ≡ₚ l.
Proof.
  induction l as [| r l IH]; [reflexivity |].
  cbn. now rewrite insert_by_relevance_perm, IH.
Qed.

Lemma order_by_relevance_sorted (l : list KnowledgeRow) :
  StronglySorted at_least_as_relevant (order_by_relevance l).
Proof.
  induction l as [| r l IH]; [constructor |].
  cbn. now apply insert_by_relevance_sorted.
Qed.

(** X12.  When the store answers, [searchKnowledge] returns the most
    relevant rows that the [WHERE] clause selects, the most relevant
    first: the selected rows split into the rows kept, at most five, and
    the rows dropped; the two parts in this order are sorted by
    relevance, so no dropped row is more relevant than a kept one, and a
    row is dropped only when five are kept. *)
Theorem searchKnowledge_top_five (query : jsstring) (mode : Mode) (st : State) :
  head (store_faults st) <> Some true ->
  exists kept dropped : list KnowledgeRow,
    (searchKnowledge query mode st).1 = inr (map row_item kept)
    /\ kept ++ dropped ≡ₚ matching_rows query st
    /\ StronglySorted at_least_as_relevant (kept ++ dropped)
    /\ length kept = Nat.min 5 (length (matching_rows query st)).
Proof.
  intros Hok.
  exists (firstn 5 (order_by_relevance (matching_rows query st))),
         (skipn 5 (order_by_relevance (matching_rows query st))).
  split; [now apply searchKnowledge_rows |].
  rewrite firstn_skipn. split; [apply order_by_relevance_perm |].
  split; [apply order_by_relevance_sorted |].
  rewrite length_take. now rewrite (Permutation_length (order_by_relevance_perm _)).
Qed.

Lemma searchKnowledge_top_five_witness :
  head (store_faults shelf_state) <> Some true
  /\ length (matching_rows (u "futuro") shelf_state) = 7
  /\ match (searchKnowledge (u "futuro") consulta shelf_state).1 with
     | inr items =>
         length items = 5
         /\ map Item.title items
            = [u "WINFUT"; u "DOLFUT"; u "INDFUT"; u "Milho"; u "Soja"]
     | inl _ => False
     end.
Proof.
  assert (H : head (store_faults shelf_state) <> Some true) by discriminate.
  assert (Hseven : length (matching_rows (u "futuro") shelf_state) = 7)
    by (vm_compute; reflexivity).
  assert (Hrun : (searchKnowledge (u "futuro") consulta shelf_state).1
                 = inr (map row_item
                            [ contract_row (u "WINFUT") (7%Z, 1%positive);
                              contract_row (u "DOLFUT") (6%Z, 1%positive);
                              contract_row (u "INDFUT") (4%Z, 1%positive);
                              contract_row (u "Milho") (3%Z, 1%positive);
                              contract_row (u "Soja") (5%Z, 2%positive) ]))
    by (vm_compute; reflexivity).
  destruct (searchKnowledge_top_five (u "futuro") consulta shelf_state H)
    as (kept & dropped & E & _ & _ & Hlen).
  split; [exact H |]. split; [exact Hseven |].
  rewrite E in Hrun. injection Hrun as Hkept. rewrite E.
  split; [now rewrite length_map, Hlen, Hseven |].
  rewrite Hkept. vm_compute. reflexivity.
Defined.

(** ** Patterns *)

Lemma like_percent_nil (q : jsstring) : like (37%N :: q) [] = like q [].
Proof. cbn. now rewrite orb_false_r. Qed.

Lemma like_percent_cons (q : jsstring) (c : N) (t : jsstring) :
  like (37%N :: q) (c :: t) = like q (c :: t) || like (37%N :: q) t.
Proof. reflexivity. Qed.


Lemma like_percent_here (q t : jsstring) :
  like q t = true -> like (37%N :: q) t = true.
Proof.
  intros H. destruct t as [| c t].
  - now rewrite like_percent_nil.
  - now rewrite like_percent_cons, H.
Qed.

Lemma like_percent_end (t : jsstring) : like [37%N] t = true.
Proof.
  induction t as [| c t IH]; [reflexivity |].
  rewrite like_percent_cons, IH. apply orb_true_r.
Qed.

(** A pattern of [%] signs matches every text. *)
Lemma like_percents (p t : jsstring) :
  p <> [] -> Forall (fun c => c = 37%N) p -> like p t = true.
Proof.
  intros Hne Hp. induction Hp as [| c p -> Hp IH]; [contradiction |].
  destruct p as [| c' p]; [apply like_percent_end |].
  apply like_percent_here, IH. discriminate.
Qed.



Lemma query_pattern_eq (query : jsstring) :
  query_pattern query = 37%N :: join [37%N] (extractKeywords query) ++ [37%N].
Proof. reflexivity. Qed.



(** X14.  A query of white space only (the empty query too) selects every
    row: when the store answers, [searchKnowledge] returns the five most
    relevant rows of the whole table. *)
Theorem searchKnowledge_blank_query (query : jsstring) (mode : Mode)
    (st : State) :
  Forall (fun c => isWhiteSpace c = true) query ->
  head (store_faults st) <> Some true ->
  matching_rows query st = financial_knowledge st
  /\ (searchKnowledge query mode st).1
     = inr (map row_item
                (firstn 5 (order_by_relevance (financial_knowledge st)))).
Proof.
  intros Hq Hok.
  assert (Hks : extractKeywords query = [ [] ]
                \/ extractKeywords query = [ []; [] ]).
  { unfold extractKeywords, split_ws.
    assert (Hl : Forall (fun c => isWhiteSpace c = true) (toLowerCase query)).
    { unfold toLowerCase. apply Forall_map.
      eapply Forall_impl; [exact Hq |]. intros c Hc. cbn.
      now rewrite isWhiteSpace_lower_unit. }
    destruct (toLowerCase query) as [| c s]; [left; reflexivity |].
    right. inversion Hl as [| ? ? Hc Hs]; subst.
    cbn [split_ws_from]. rewrite Hc.
    rewrite <- (app_nil_r s), split_ws_gap_true by assumption.
    reflexivity. }
  assert (Hall : matching_rows query st = financial_knowledge st).
  { unfold matching_rows.
    assert (Hp : forall t, like (query_pattern query) t = true).
    { intros t. rewrite query_pattern_eq.
      apply like_percents; [discriminate |].
      destruct Hks as [-> | ->]; repeat constructor. }
    induction (financial_knowledge st) as [| r rows IH]; [reflexivity |].
    cbn [List.filter]. unfold knowledge_where at 1. rewrite Hp. cbn [orb].
    now rewrite IH. }
  split; [exact Hall |].
  rewrite searchKnowledge_rows by exact Hok. now rewrite Hall.
Qed.

Lemma searchKnowledge_blank_query_witness :
  (searchKnowledge (u "  ") robot library_state).1
  = inr (map row_item [winfut_row; dolar_row; macd_row]).
Proof.
  destruct (searchKnowledge_blank_query (u "  ") robot library_state)
    as (_ & E).
  - repeat constructor.
  - discriminate.
  - rewrite E. reflexivity.
Defined.

(** ** The chat route charges a second time *)

Lemma no_fault_drop (k : nat) (faults : list bool) :
  no_fault faults = true -> no_fault (drop k faults) = true.
Proof.
  revert faults. induction k as [| k IH]; intros faults H; [exact H |].
  destruct faults as [| b rest]; [exact H |].
  cbn. apply IH. cbn in H. now apply andb_true_iff in H.
Qed.

Lemma logUsage_faults (userId : Z) (provider : jsstring) (tokens : value)
    (st : State) :
  exists k : nat,
    store_faults (logUsage userId provider tokens st).2
    = drop k (store_faults st).
Proof.
  unfold logUsage, try_catch, select_user, update_credits, insert_api_log,
    mbind, M_bind, bind, store_begin, gets, modify, console_error, mret, M_ret,
    ret.
  destruct (store_faults st) as [| [|] [| [|] [| [|] rest]]] eqn:F;
    cbn; rewrite ?F; cbn;
    destruct (users st !! userId) as [usr |] eqn:Hu; cbn;
    try destruct (is_metered usr) eqn:Hm;
    repeat (progress (cbn; rewrite ?F));
    first [ now exists 0%nat | now exists 1%nat | now exists 2%nat
          | now exists 3%nat ].
Qed.

(** An identified request with a history array, while the store answers:
    charged once, logged once, and the store still answers afterwards. *)
Lemma generateResponse_metered_state (message : jsstring) (mode : Mode)
    (id : Z) (history : loc) (turns : list Msg.t) (st : State) :
  id <> 0%Z ->
  heap st !! history = Some turns ->
  no_fault (store_faults st) = true ->
  exists (r : DispatchResult) (st' : State),
    generateResponse message mode (Some id) history st = (inr r, st')
    /\ users st' = charge id (users st)
    /\ api_logs st' = api_logs st ++ [usage_row id]
    /\ no_fault (store_faults st') = true.
Proof.
  intros Hid Hh Hok.
  destruct (generateResponse_trace message mode (Some id) history turns st Hh)
    as (items & reply & st1 & st2 & Es & Ec & E).
  destruct (provider_call_frame _ _ _ _ _ _ _ _ _ _ Es Ec) as (Hu & Hl & Hf).
  assert (Ht : truthy_id (Some id) = Some id).
  { cbn. destruct (id =? 0)%Z eqn:E0; [| reflexivity].
    apply Z.eqb_eq in E0. contradiction. }
  rewrite Ht in E.
  assert (Hok2 : no_fault (store_faults st2) = true)
    by (rewrite Hf; now apply no_fault_tail).
  destruct (logUsage_run id (selectProvider message mode)
              (js_or (Reply.tokensUsed reply) (VNum 100)) st2 Hok2)
    as (rest & El).
  destruct (logUsage_faults id (selectProvider message mode)
              (js_or (Reply.tokensUsed reply) (VNum 100)) st2) as (k & Hk).
  do 2 eexists. split; [exact E |].
  rewrite Hk. split; [| split; [| now apply no_fault_drop]].
  - rewrite El. cbn. now rewrite Hu.
  - rewrite El. cbn. now rewrite Hl.
Qed.

Lemma select_user_ok (id : Z) (st : State) :
  no_fault (store_faults st) = true ->
  exists rest,
    select_user id st
    = (inr (users st !! id), set_store_faults (fun _ => rest) st)
    /\ no_fault rest = true.
Proof.
  intros H. destruct (store_begin_ok st H) as (rest & E & Hr).
  exists rest. split; [| exact Hr].
  unfold select_user. erewrite bind_inr by exact E. reflexivity.
Qed.

(** The credit block after a request, while the store answers: one more
    [charge], and the balance it reports is the balance it leaves. *)
Lemma update_credits_after_run (id : Z) (st : State) :
  id <> 0%Z ->
  no_fault (store_faults st) = true ->
  exists st' : State,
    update_credits_after (Some id) st
    = (inr (credits <$> (charge id (users st) !! id)), st')
    /\ users st' = charge id (users st)
    /\ api_logs st' = api_logs st.
Proof.
  intros Hid Hok. unfold update_credits_after.
  assert (Ht : truthy_id (Some id) = Some id).
  { cbn. destruct (id =? 0)%Z eqn:E0; [| reflexivity].
    apply Z.eqb_eq in E0. contradiction. }
  rewrite Ht. destruct (select_user_ok id st Hok) as (r1 & E1 & Hok1).
  erewrite bind_inr by exact E1. unfold charge.
  destruct (users st !! id) as [usr |] eqn:Hu.
  - destruct (is_metered usr) eqn:Hm.
    + destruct (store_begin_ok (set_store_faults (fun _ => r1) st) Hok1)
        as (r2 & E2 & _).
      eexists. split; [| split].
      * erewrite bind_inr.
        2:{ unfold update_credits. erewrite bind_inr by exact E2. reflexivity. }
        rewrite lookup_alter_eq, Hu. reflexivity.
      * reflexivity.
      * reflexivity.
    + eexists. split; [| split]; [now rewrite Hu | reflexivity | reflexivity].
  - eexists. split; [| split]; [now rewrite Hu | reflexivity | reflexivity].
Qed.

(** X15.  An identified chat message is charged twice: once by [logUsage]
    inside [generateResponse] and once more by the route's own credit
    block.  While the store answers, the accounts end as two [charge]s
    leave them, the usage log has one more row, and the balance that the
    route reports is the balance it leaves.  A free or basic account with
    at least two credits loses two of them; with one credit it loses
    that one. *)
Theorem answer_message_charges_twice (message : jsstring) (mode : Mode)
    (id : Z) (conversation : option Z) (history : loc) (turns : list Msg.t)
    (usr : User) (st : State) :
  id <> 0%Z ->
  heap st !! history = Some turns ->
  no_fault (store_faults st) = true ->
  users st !! id = Some usr ->
  exists (r : DispatchResult) (reported : option Z) (st' : State),
    answer_message message mode (Some id) conversation history st
    = (inr (r, reported), st')
    /\ users st' = charge id (charge id (users st))
    /\ api_logs st' = api_logs st ++ [usage_row id]
    /\ reported = credits <$> (users st' !! id)
    /\ (is_metered usr = true ->
        users st' !! id
        = Some {| plan := plan usr;
                  credits := Z.max 0 (credits usr - 2) |}).
Proof.
  intros Hid Hh Hok Hu. unfold answer_message.
  destruct (generateResponse_metered_state message mode id history turns st
              Hid Hh Hok) as (r & st1 & Eg & Hu1 & Hl1 & Hok1).
  assert (Hsave : exists st2,
             match conversation with
             | Some _ => insert_message
             | None => mret tt
             end st1 = (inr tt, st2)
             /\ users st2 = users st1 /\ api_logs st2 = api_logs st1
             /\ no_fault (store_faults st2) = true).
  { destruct conversation as [c |].
    - destruct (store_begin_ok st1 Hok1) as (rest & E & Hr).
      eexists. split; [exact E |]. now repeat split.
    - eexists. split; [reflexivity |]. now repeat split. }
  destruct Hsave as (st2 & Es & Hu2 & Hl2 & Hok2).
  destruct (update_credits_after_run id st2 Hid Hok2) as (st3 & Ec & Hu3 & Hl3).
  exists r, (credits <$> (charge id (users st2) !! id)), st3.
  split.
  { erewrite bind_inr by exact Eg. erewrite bind_inr by exact Es.
    erewrite bind_inr by exact Ec. reflexivity. }
  rewrite Hu3, Hl3, Hu2, Hl2, Hu1, Hl1.
  split; [reflexivity |]. split; [reflexivity |]. split; [reflexivity |].
  intros Hm. unfold charge at 2. rewrite Hu, Hm.
  unfold charge. rewrite lookup_alter_eq, Hu. cbn [fmap option_fmap option_map].
  unfold is_metered in *. cbn [plan credits].
  apply andb_true_iff in Hm as [Hplan Hpos]. rewrite Hplan. cbn [andb].
  apply Z.ltb_lt in Hpos.
  destruct (0 <? credits usr - 1)%Z eqn:E2.
  - apply Z.ltb_lt in E2. rewrite lookup_alter_eq, lookup_alter_eq, Hu. cbn.
    do 2 f_equal. lia.
  - apply Z.ltb_ge in E2. rewrite lookup_alter_eq, Hu. cbn.
    do 2 f_equal. lia.
Qed.

Lemma answer_message_charges_twice_witness :
  users member_state !! 7%Z = Some {| plan := u "free"; credits := 3 |}
  /\ match answer_message (u "olá") consulta (Some 7%Z) (Some 12%Z) 1%positive
                          member_state with
     | (inr (_, reported), st') =>
         reported = Some 1%Z
         /\ users st' !! 7%Z = Some {| plan := u "free"; credits := 1 |}
     | (inl _, _) => False
     end.
Proof.
  assert (Hid : 7%Z <> 0%Z) by discriminate.
  destruct (answer_message_charges_twice (u "olá") consulta 7 (Some 12%Z)
              1%positive seven_turns {| plan := u "free"; credits := 3 |}
              member_state Hid eq_refl eq_refl eq_refl)
    as (r & reported & st' & E & _ & _ & Hrep & Hm).
  split; [reflexivity |]. rewrite E.
  specialize (Hm eq_refl). rewrite Hm in Hrep. split; [exact Hrep | exact Hm].
Defined.

(** ** Bodies that the adapters accept *)

Lemma provider_outcome_reply (provider : jsstring) (status : Z) (data : value)
    (rest : list HttpReply) (st : State) :
  is_provider provider ->
  http_replies st = HttpResponse status data :: rest ->
  provider_outcome provider st
  = if ((200 <=? status) && (status <? 300))%Z
    then match adapter_reply provider data with
         | inr reply => inr (Some reply)
         | inl e => inl e
         end
    else inl AxiosError.
Proof.
  intros Hp Hr.
  unfold provider_outcome, adapter_reply, dispatch, callOpenAI, callClaude,
    callDeepSeek.
  destruct Hp as [-> | [-> | ->]].
  - change (jsstring_eqb openai openai) with true.
    change (jsstring_eqb openai claude) with false. cbv iota.
    unfold mbind, M_bind, bind, axios_post, lift, mret, M_ret, ret. rewrite Hr.
    destruct ((200 <=? status)%Z && (status <? 300)%Z); [| reflexivity].
    now destruct (completion_reply data).
  - change (jsstring_eqb claude openai) with false.
    change (jsstring_eqb claude claude) with true. cbv iota.
    unfold mbind, M_bind, bind, axios_post, lift, mret, M_ret, ret. rewrite Hr.
    destruct ((200 <=? status)%Z && (status <? 300)%Z); [| reflexivity].
    now destruct (message_reply data).
  - change (jsstring_eqb deepseek openai) with false.
    change (jsstring_eqb deepseek claude) with false.
    change (jsstring_eqb deepseek deepseek) with true. cbv iota.
    unfold mbind, M_bind, bind, axios_post, lift, mret, M_ret, ret. rewrite Hr.
    destruct ((200 <=? status)%Z && (status <? 300)%Z); [| reflexivity].
    now destruct (completion_reply data).
Qed.

Lemma get_prop_error (v : value) (k : jsstring) (e : exn) :
  get_prop v k = inl e -> e = TypeError.
Proof. destruct v; cbn; congruence. Qed.

Lemma get_first_error (v : value) (e : exn) :
  get_first v = inl e -> e = TypeError.
Proof. destruct v; cbn; congruence. Qed.

Lemma adapter_reply_lacks_usage (provider : jsstring) (data : value) :
  lacks_usage data -> adapter_reply provider data = inl TypeError.
Proof.
  intros Hu. unfold adapter_reply, message_reply, completion_reply.
  destruct (jsstring_eqb provider claude);
    unfold mbind, result_bind;
    repeat match goal with
           | |- context [match get_prop ?v ?k with _ => _ end] =>
               let E := fresh "E" in
               destruct (get_prop v k) as [? | ?] eqn:E;
               [ apply get_prop_error in E; now subst
               | try (destruct Hu as [Hu | Hu]; rewrite Hu in E;
                      injection E as <-; reflexivity) ]
           | |- context [match get_first ?v with _ => _ end] =>
               let E := fresh "E" in
               destruct (get_first v) as [? | ?] eqn:E;
               [ apply get_first_error in E; now subst | ]
           end.
Qed.

(** X16.  An answer whose body has no usage object is thrown away, even
    with a success status and with its text in place: reading the token
    count throws, and [generateResponse] returns one of the two canned
    mock texts instead. *)
Theorem generateResponse_without_usage (message : jsstring) (mode : Mode)
    (userId : option Z) (history : loc) (turns : list Msg.t) (status : Z)
    (data : value) (rest : list HttpReply) (st : State) :
  heap st !! history = Some turns ->
  http_replies st = HttpResponse status data :: rest ->
  lacks_usage data ->
  adapter_reply (selectProvider message mode) data = inl TypeError
  /\ exists (r : DispatchResult) (st' : State),
       generateResponse message mode userId history st = (inr r, st')
       /\ (content r = VStr mock_content_0 \/ content r = VStr mock_content_1).
Proof.
  intros Hh Hr Hu.
  pose proof (adapter_reply_lacks_usage (selectProvider message mode) data Hu)
    as Ha.
  split; [exact Ha |].
  destruct (generateResponse_run message mode userId history turns st Hh)
    as (reply & st' & E & Hcase & _).
  do 2 eexists. split; [exact E |]. cbn [content result_from].
  rewrite (provider_outcome_reply _ status data rest st
             (selectProvider_is_provider message mode) Hr), Ha in Hcase.
  destruct Hcase as [Hok | (_ & Hin)].
  - destruct ((200 <=? status)%Z && (status <? 300)%Z); discriminate.
  - destruct Hin as [<- | [<- | []]]; [left | right]; reflexivity.
Qed.

Lemma generateResponse_without_usage_witness :
  lacks_usage (VObj [ (u "choices",
                       VArr [ VObj [ (u "message",
                                      VObj [ (u "content", VStr (u "Alta.")) ]) ] ]) ])
  /\ match (generateResponse (u "olá") consulta None 1%positive
                             text_only_state).1 with
     | inr r => content r = VStr mock_content_0
     | inl _ => False
     end.
Proof.
  assert (Hu : lacks_usage
                 (VObj [ (u "choices",
                          VArr [ VObj [ (u "message",
                                         VObj [ (u "content",
                                                 VStr (u "Alta.")) ]) ] ]) ]))
    by (left; reflexivity).
  destruct (generateResponse_without_usage (u "olá") consulta None 1%positive
              [] 200 _ [] text_only_state eq_refl eq_refl Hu)
    as (_ & r & st' & E & Hc).
  split; [exact Hu |]. rewrite E. cbn [fst].
  destruct Hc as [Hc | Hc]; [exact Hc |].
  exfalso. revert E Hc. vm_compute. intros [= <- _]. discriminate.
Defined.

(** X17.  When the provider answers with a success status and a body
    that its adapter can read, [generateResponse] hands the answer on as it
    is: the content is what the body holds (whatever kind of value), the
    token count is the body's count or 100 when that is falsy, provider and
    model are those of the selected provider. *)
Theorem generateResponse_passes_answer (message : jsstring) (mode : Mode)
    (userId : option Z) (history : loc) (turns : list Msg.t) (status : Z)
    (data : value) (rest : list HttpReply) (reply : Reply.t) (st : State) :
  heap st !! history = Some turns ->
  http_replies st = HttpResponse status data :: rest ->
  (200 <= status < 300)%Z ->
  adapter_reply (selectProvider message mode) data = inr reply ->
  (generateResponse message mode userId history st).1
  = inr {| content := Reply.content reply;
           provider := selectProvider message mode;
           tokensUsed := js_or (Reply.tokensUsed reply) (VNum 100);
           model := model_name (selectProvider message mode) |}.
Proof.
  intros Hh Hr Hs Ha.
  destruct (generateResponse_run message mode userId history turns st Hh)
    as (reply' & st' & E & Hcase & _).
  rewrite E. cbn [fst].
  rewrite (provider_outcome_reply _ status data rest st
             (selectProvider_is_provider message mode) Hr), Ha in Hcase.
  replace ((200 <=? status)%Z && (status <? 300)%Z) with true in Hcase
    by (symmetry; apply andb_true_iff; split;
        [apply Z.leb_le | apply Z.ltb_lt]; lia).
  destruct Hcase as [[= <-] | ((e & He) & _)]; [reflexivity | discriminate].
Qed.

Lemma generateResponse_passes_answer_witness :
  (generateResponse (u "qual a tendência?") consulta (Some 7%Z) 1%positive
                    member_state).1
  = inr {| content := VStr (u "Alta."); provider := deepseek;
           tokensUsed := VNum 42; model := u "deepseek-chat" |}.
Proof.
  rewrite (generateResponse_passes_answer (u "qual a tendência?") consulta
             (Some 7%Z) 1%positive seven_turns 200 _ []
             (Reply.make (VStr (u "Alta.")) (VNum 42)) member_state
             eq_refl eq_refl ltac:(lia) eq_refl).
  reflexivity.
Defined.

(** ** Seeding the knowledge table *)

Lemma select_title_ok (title : jsstring) (st : State) :
  no_fault (store_faults st) = true ->
  exists rest,
    select_title title st
    = (inr (has_title (financial_knowledge st) title),
       set_store_faults (fun _ => rest) st)
    /\ no_fault rest = true.
Proof.
  intros H. destruct (store_begin_ok st H) as (rest & E & Hr).
  exists rest. split; [| exact Hr].
  unfold select_title. erewrite bind_inr by exact E. reflexivity.
Qed.

Lemma seeded_cons (item : SeedItem) (items : list SeedItem)
    (table : list KnowledgeRow) :
  seeded (item :: items) table
  = seeded items (if has_title table (seed_title item) then table
                  else table ++ [seed_row item]).
Proof. reflexivity. Qed.

(** While the store answers, the loop of the seeding ends with the table
    that [seeded] describes and touches nothing else but the consumed
    store outcomes. *)
Lemma for_each_seed_run (items : list SeedItem) (st : State) :
  no_fault (store_faults st) = true ->
  exists rest,
    for_each items seed_item st
    = (inr tt,
       set_store_faults (fun _ => rest)
         (set_financial_knowledge
            (fun _ => seeded items (financial_knowledge st)) st))
    /\ no_fault rest = true.
Proof.
  revert st. induction items as [| item items IH]; intros st Hok.
  - exists (store_faults st). split; [| exact Hok].
    cbn. unfold mret, M_ret, ret. f_equal. now destruct st.
  - cbn [for_each]. rewrite seeded_cons.
    destruct (select_title_ok (seed_title item) st Hok) as (r1 & E1 & Hok1).
    destruct (has_title (financial_knowledge st) (seed_title item)) eqn:Ht.
    + destruct (IH (set_store_faults (fun _ => r1) st) Hok1)
        as (r2 & E2 & Hok2).
      exists r2. split; [| exact Hok2].
      erewrite bind_inr.
      2:{ unfold seed_item. erewrite bind_inr by exact E1. reflexivity. }
      rewrite E2. reflexivity.
    + destruct (store_begin_ok (set_store_faults (fun _ => r1) st) Hok1)
        as (r2 & E2 & Hok2).
      destruct (IH (set_financial_knowledge
                      (fun table => table ++ [seed_row item])
                      (set_store_faults (fun _ => r2)
                         (set_store_faults (fun _ => r1) st))) Hok2)
        as (r3 & E3 & Hok3).
      exists r3. split; [| exact Hok3].
      erewrite bind_inr.
      2:{ unfold seed_item. erewrite bind_inr by exact E1.
          unfold insert_knowledge. erewrite bind_inr by exact E2.
          reflexivity. }
      rewrite E3. reflexivity.
Qed.

(** What a healthy run of the loop leaves behind. *)
Lemma for_each_seed_facts (items : list SeedItem) (st : State) :
  no_fault (store_faults st) = true ->
  (for_each items seed_item st).1 = inr tt
  /\ financial_knowledge (for_each items seed_item st).2
     = seeded items (financial_knowledge st)
  /\ users (for_each items seed_item st).2 = users st
  /\ api_logs (for_each items seed_item st).2 = api_logs st
  /\ no_fault (store_faults (for_each items seed_item st).2) = true.
Proof.
  intros Hok. destruct (for_each_seed_run items st Hok) as (rest & E & Hr).
  rewrite E. repeat split. exact Hr.
Qed.

Lemma has_title_app (table more : list KnowledgeRow) (title : jsstring) :
  has_title table title = true -> has_title (table ++ more) title = true.
Proof.
  unfold has_title. rewrite existsb_app. intros ->. reflexivity.
Qed.

Lemma seeded_keeps_titles (items : list SeedItem) (table : list KnowledgeRow)
    (title : jsstring) :
  has_title table title = true -> has_title (seeded items table) title = true.
Proof.
  revert table. induction items as [| item items IH]; intros table H;
    [exact H |].
  rewrite seeded_cons. apply IH.
  destruct (has_title table (seed_title item)); [exact H |].
  now apply has_title_app.
Qed.

Lemma seeded_has_titles (items : list SeedItem) (table : list KnowledgeRow)
    (item : SeedItem) :
  In item items -> has_title (seeded items table) (seed_title item) = true.
Proof.
  revert table. induction items as [| first items IH]; intros table Hin;
    [contradiction |].
  rewrite seeded_cons. destruct Hin as [-> | Hin]; [| now apply IH].
  apply seeded_keeps_titles.
  destruct (has_title table (seed_title item)) eqn:E; [exact E |].
  unfold has_title. rewrite existsb_app. cbn.
  rewrite jsstring_eqb_refl. now rewrite orb_true_r.
Qed.

Lemma seeded_fixed (items : list SeedItem) (table : list KnowledgeRow) :
  (forall item, In item items -> has_title table (seed_title item) = true) ->
  seeded items table = table.
Proof.
  revert table. induction items as [| item items IH]; intros table H;
    [reflexivity |].
  rewrite seeded_cons. rewrite (H item) by now left.
  apply IH. intros other Hin. apply H. now right.
Qed.

Lemma seeded_extends (items : list SeedItem) (table : list KnowledgeRow) :
  exists added : list KnowledgeRow,
    seeded items table = table ++ added
    /\ Forall (fun r => has_title table (Item.title (row_item r)) = false
                        /\ exists item, In item items /\ r = seed_row item)
              added.
Proof.
  revert table. induction items as [| item items IH]; intros table.
  - exists []. split; [now rewrite app_nil_r | constructor].
  - rewrite seeded_cons.
    destruct (has_title table (seed_title item)) eqn:E.
    + destruct (IH table) as (added & Ha & Hf). exists added.
      split; [exact Ha |]. eapply Forall_impl; [exact Hf |].
      intros r (Hr & other & Hin & ->). split; [exact Hr |].
      exists other. split; [now right | reflexivity].
    + destruct (IH (table ++ [seed_row item])) as (added & Ha & Hf).
      exists (seed_row item :: added). split; [now rewrite Ha, <- app_assoc |].
      constructor.
      * split; [exact E |]. exists item. split; [now left | reflexivity].
      * eapply Forall_impl; [exact Hf |].
        intros r (Hr & other & Hin & ->). split.
        -- destruct (has_title table (Item.title (row_item (seed_row other))))
             eqn:E2; [| reflexivity].
           now rewrite (has_title_app _ [seed_row item] _ E2) in Hr.
        -- exists other. split; [now right | reflexivity].
Qed.

(** X18.  Seeding is idempotent and only adds what is missing.  While the
    store answers, [seedFinancialKnowledge] keeps every row of the table
    in place and appends a row only for a seed title that no row has yet;
    afterwards each of the five seed titles is in the table, and seeding
    again changes nothing; accounts and usage log are not touched. *)
Theorem seedFinancialKnowledge_idempotent (st : State) :
  no_fault (store_faults st) = true ->
  (seedFinancialKnowledge st).1 = inr tt
  /\ (exists added : list KnowledgeRow,
        financial_knowledge (seedFinancialKnowledge st).2
        = financial_knowledge st ++ added
        /\ Forall (fun r =>
                     has_title (financial_knowledge st)
                               (Item.title (row_item r)) = false
                     /\ exists item, In item knowledgeData /\ r = seed_row item)
                  added)
  /\ (forall item : SeedItem,
        In item knowledgeData ->
        has_title (financial_knowledge (seedFinancialKnowledge st).2)
                  (seed_title item) = true)
  /\ financial_knowledge
       (seedFinancialKnowledge (seedFinancialKnowledge st).2).2
     = financial_knowledge (seedFinancialKnowledge st).2
  /\ users (seedFinancialKnowledge st).2 = users st
  /\ api_logs (seedFinancialKnowledge st).2 = api_logs st.
Proof.
  intros Hok. unfold seedFinancialKnowledge.
  destruct (for_each_seed_facts knowledgeData st Hok)
    as (Hr & Hk & Hu & Hl & Hok1).
  destruct (for_each_seed_facts knowledgeData _ Hok1) as (_ & Hk2 & _).
  rewrite Hk2, Hk.
  split; [exact Hr |]. split; [apply seeded_extends |].
  split; [intros item Hin; now apply seeded_has_titles |].
  split; [| split; assumption].
  apply seeded_fixed. intros item Hin. now apply seeded_has_titles.
Qed.

Lemma seedFinancialKnowledge_idempotent_witness :
  map (fun r => Item.title (row_item r))
      (financial_knowledge (seedFinancialKnowledge library_state).2)
  = map (fun r => Item.title (row_item r)) three_rows
    ++ [ u "Mini Índice Bovespa Futuro"; u "Índice Bovespa Futuro";
         u "Estratégia de Scalping";
         u "Moving Average Convergence Divergence" ]
  /\ financial_knowledge
       (seedFinancialKnowledge (seedFinancialKnowledge library_state).2).2
     = financial_knowledge (seedFinancialKnowledge library_state).2.
Proof.
  destruct (seedFinancialKnowledge_idempotent library_state eq_refl)
    as (_ & _ & _ & Hagain & _).
  split; [vm_compute; reflexivity | exact Hagain].
Defined.


(** ** Metering calls that take turns *)







